(** * Rate calculation engine of the rate-card invoicing system

    A shallow embedding of the pricing engine found in
    [src/models/rate_item.js] (RateItem, RateCondition, RateCard),
    [src/models/additional_charge.js] (AdditionalCharge),
    [src/models/charge_calculation.js] (ChargeCalculation),
    [src/services/rate_card_service.js] (FuelAdjustment) and the
    enumerations of [src/models/rate_card_version.js].

    JavaScript numbers are IEEE 754 binary64 values: they are modelled by
    Rocq's primitive [float]s, whose operations round to nearest-even as
    the JavaScript ones do.  Thrown exceptions are modelled by an error
    monad.  A trip record is an object: finite maps from property names
    to JavaScript values, for its own properties and for those it
    inherits. *)

From Stdlib Require Import ZArith Floats String Ascii List Bool Lia DecimalString.
From stdpp Require Import gmap strings.
Import ListNotations.

Local Open Scope string_scope.
Local Open Scope Z_scope.

(** ** The host language: values, exceptions, conversions *)

Module JS.

(** The values a trip record or a condition may hold: [undefined], [null],
    booleans, numbers, strings, and the ordinary objects (plain objects,
    arrays, functions).  An object is known by its identity [ref] and by
    [text], the string its conversion to a primitive gives: what its
    [toString] returns, as its [valueOf] returns the object itself.
    Symbols, BigInts and objects with conversion methods of their own
    (dates, say) are left out. *)
Inductive value : Type :=
  | VUndefined
  | VNull
  | VBool (b : bool)
  | VNum (n : float)
  | VStr (s : string)
  | VObject (ref : positive) (text : string).

(** [throw new Error(msg)] and the [TypeError] raised by the runtime when a
    property of [null] or [undefined] is read or what is called is not a
    function. *)
Inductive exn : Type :=
  | Error (message : string)
  | TypeError.

Inductive result (A : Type) : Type :=
  | Ok (a : A)
  | Throw (e : exn).

Arguments Ok {A} a.
Arguments Throw {A} e.

Definition bind {A B : Type} (r : result A) (k : A -> result B) : result B :=
  match r with
  | Ok a => k a
  | Throw e => Throw e
  end.

(** *** Strings

    A string is a sequence of code units; the model keeps the code units
    below 256. *)

(** WhiteSpace and LineTerminator code units: TAB, LF, VT, FF, CR, SP, NBSP. *)
Definition isWhiteSpace (c : ascii) : bool :=
  existsb (Nat.eqb (nat_of_ascii c)) [9; 10; 11; 12; 13; 32; 160]%nat.

Fixpoint trimStart (s : string) : string :=
  match s with
  | String c r => if isWhiteSpace c then trimStart r else s
  | EmptyString => EmptyString
  end.

Fixpoint trimEnd (s : string) : string :=
  match s with
  | EmptyString => EmptyString
  | String c r =>
      match trimEnd r with
      | EmptyString => if isWhiteSpace c then EmptyString else String c EmptyString
      | r' => String c r'
      end
  end.

(** [String.prototype.trim] *)
Definition trim (s : string) : string := trimEnd (trimStart s).

(** [s.split(sep)] for a one-character separator: never the empty list. *)
Fixpoint split (sep : ascii) (s : string) : list string :=
  match s with
  | EmptyString => [EmptyString]
  | String c r =>
      if Ascii.eqb c sep then EmptyString :: split sep r
      else match split sep r with
           | h :: t => String c h :: t
           | [] => [String c EmptyString]
           end
  end.

Fixpoint stripPrefix (p s : string) : option string :=
  match p with
  | EmptyString => Some s
  | String a p' =>
      match s with
      | String b s' => if Ascii.eqb a b then stripPrefix p' s' else None
      | EmptyString => None
      end
  end.

(** [String.prototype.includes]: [needle] occurs in [s] as a substring. *)
Fixpoint includes (s needle : string) : bool :=
  match stripPrefix needle s with
  | Some _ => true
  | None =>
      match s with
      | String _ r => includes r needle
      | EmptyString => false
      end
  end.

(** [Array.prototype.includes] on an array of strings. *)
Definition arrayIncludes (l : list string) (x : string) : bool :=
  existsb (String.eqb x) l.

(** *** Numeric literals in strings (StrDecimalLiteral) *)

Definition digitValue (c : ascii) : option Z :=
  let n := Z.of_nat (nat_of_ascii c) in
  if (48 <=? n) && (n <=? 57) then Some (n - 48) else None.

(** Longest run of DecimalDigits: value accumulated onto [acc], number of
    digits read added to [cnt], and the rest of the string. *)
Fixpoint scanDigits (s : string) (acc cnt : Z) : Z * Z * string :=
  match s with
  | String c r =>
      match digitValue c with
      | Some d => scanDigits r (10 * acc + d) (cnt + 1)
      | None => (acc, cnt, s)
      end
  | EmptyString => (acc, cnt, s)
  end.

(** The mathematical value of a literal: infinite, or [m * 10 ^ e10]. *)
Inductive numeral : Type :=
  | NInfinity
  | NDecimal (m e10 : Z).

Definition scanSign (s : string) : bool * string :=
  match s with
  | String "+"%char r => (false, r)
  | String "-"%char r => (true, r)
  | _ => (false, s)
  end.

(** ExponentPart, when one is there: [e] or [E], a sign, at least one digit. *)
Definition scanExponent (s : string) : Z * string :=
  match s with
  | String c r =>
      if Ascii.eqb c "e" || Ascii.eqb c "E" then
        let '(neg, r1) := scanSign r in
        let '(v, cnt, rest) := scanDigits r1 0 0 in
        if cnt =? 0 then (0, s) else (if neg then - v else v, rest)
      else (0, s)
  | EmptyString => (0, s)
  end.

(** Longest prefix that is a StrUnsignedDecimalLiteral. *)
Definition scanUnsigned (s : string) : option (numeral * string) :=
  match stripPrefix "Infinity" s with
  | Some rest => Some (NInfinity, rest)
  | None =>
      let '(ip, icnt, r1) := scanDigits s 0 0 in
      match r1 with
      | String "."%char r2 =>
          let '(m, fcnt, r3) := scanDigits r2 ip 0 in
          if (icnt =? 0) && (fcnt =? 0) then None
          else let '(e, rest) := scanExponent r3 in
               Some (NDecimal m (e - fcnt), rest)
      | _ =>
          if icnt =? 0 then None
          else let '(e, rest) := scanExponent r1 in
               Some (NDecimal ip e, rest)
      end
  end.

(** Longest prefix that is a StrDecimalLiteral, with its sign. *)
Definition scanStrDecimalLiteral (s : string) : option (bool * numeral * string) :=
  let '(neg, r) := scanSign s in
  match scanUnsigned r with
  | Some (n, rest) => Some (neg, n, rest)
  | None => None
  end.

(** The Number value of an integer: round to nearest, ties to even. *)
Definition ofZ (z : Z) : float :=
  SF2Prim (binary_normalize prec emax z 0 false).

(** The Number value of [(-1)^neg * m * 10 ^ e10]. *)
Definition roundDecimal (neg : bool) (m e10 : Z) : float :=
  match m with
  | Zpos p =>
      if 0 <=? e10 then ofZ (cond_Zopp neg (m * 10 ^ e10))
      else SF2Prim (SFdiv prec emax (S754_finite neg p 0)
                      (S754_finite false (Z.to_pos (10 ^ (- e10))) 0))
  | _ => if neg then PrimFloat.neg_zero else PrimFloat.zero
  end.

Definition numeralValue (neg : bool) (n : numeral) : float :=
  match n with
  | NInfinity => if neg then PrimFloat.neg_infinity else PrimFloat.infinity
  | NDecimal m e10 => roundDecimal neg m e10
  end.

(** The global [parseFloat], applied to a string. *)
Definition parseFloat (s : string) : float :=
  match scanStrDecimalLiteral (trimStart s) with
  | Some (neg, n, _) => numeralValue neg n
  | None => PrimFloat.nan
  end.

(** NonDecimalIntegerLiteral: [0x], [0o], [0b] and at least one digit. *)
Definition radixDigit (radix : Z) (c : ascii) : option Z :=
  let n := Z.of_nat (nat_of_ascii c) in
  let d := if (48 <=? n) && (n <=? 57) then n - 48
           else if (97 <=? n) && (n <=? 102) then n - 87
           else if (65 <=? n) && (n <=? 70) then n - 55
           else 16 in
  if d <? radix then Some d else None.

Fixpoint scanRadix (radix : Z) (s : string) (acc : Z) : option Z :=
  match s with
  | EmptyString => Some acc
  | String c r =>
      match radixDigit radix c with
      | Some d => scanRadix radix r (radix * acc + d)
      | None => None
      end
  end.

Definition radixOfPrefix (c : ascii) : option Z :=
  if Ascii.eqb c "x" || Ascii.eqb c "X" then Some 16
  else if Ascii.eqb c "o" || Ascii.eqb c "O" then Some 8
  else if Ascii.eqb c "b" || Ascii.eqb c "B" then Some 2
  else None.

Definition scanNonDecimal (t : string) : option float :=
  match t with
  | String "0"%char (String c (String _ _ as digits)) =>
      match radixOfPrefix c with
      | Some radix =>
          match scanRadix radix digits 0 with
          | Some z => Some (ofZ z)
          | None => None
          end
      | None => None
      end
  | _ => None
  end.

(** StringToNumber: the whole trimmed string must be a numeric literal;
    the empty string is [+0]. *)
Definition StringToNumber (s : string) : float :=
  match trim s with
  | EmptyString => PrimFloat.zero
  | t =>
      match scanNonDecimal t with
      | Some v => v
      | None =>
          match scanStrDecimalLiteral t with
          | Some (neg, n, EmptyString) => numeralValue neg n
          | _ => PrimFloat.nan
          end
      end
  end.

(** *** Number::toString (radix 10)

    The shortest decimal digit string [d] and exponent [n] whose value
    [0.d * 10 ^ n] converts back to the number; among several of the same
    length the closest one, an even last digit breaking a tie. *)

Definition digitsOf (z : Z) : string :=
  NilZero.string_of_uint (N.to_uint (Z.to_N z)).

Definition zeros (n : Z) : string :=
  string_of_list_ascii (repeat "0"%char (Z.to_nat n)).

(** [num / den / 10 ^ t] as a fraction. *)
Definition scaled (num den t : Z) : Z * Z :=
  if 0 <=? t then (num, den * 10 ^ t) else (num * 10 ^ (- t), den).

(** The [n0] with [10 ^ (n0 - 1) <= num / den < 10 ^ n0], for a positive
    binary64 value [num / den] (none is below [10 ^ -400]). *)
Definition decimalExponent (num den : Z) : Z :=
  Z.of_nat (String.length (digitsOf (num * 10 ^ 400 / den))) - 400.

(** The best [k]-digit candidate, if one converts back to [x]: the two
    integers around [num / den / 10 ^ (n0 - k)]. *)
Definition pickDigits (x : float) (num den n0 k : Z) : option (Z * Z) :=
  let t := n0 - k in
  let '(a, b) := scaled num den t in
  let lo := a / b in
  let hi := lo + 1 in
  let okLo := PrimFloat.eqb (roundDecimal false lo t) x in
  let okHi := PrimFloat.eqb (roundDecimal false hi t) x in
  let dLo := a - lo * b in
  let dHi := hi * b - a in
  let useLo := (dLo <? dHi) || ((dLo =? dHi) && Z.even lo) in
  let norm := fun s => if s =? 10 ^ k then (10 ^ (k - 1), n0 + 1) else (s, n0) in
  if okLo && (negb okHi || useLo) then Some (norm lo)
  else if okHi then Some (norm hi)
  else None.

(** Try [k], [k + 1], ...: seventeen digits always identify a binary64
    value, so the search ends before [fuel] does. *)
Fixpoint shortest (x : float) (num den n0 : Z) (fuel : nat) (k : Z) : Z * Z :=
  match fuel with
  | O => (fst (scaled num den (n0 - k)) / snd (scaled num den (n0 - k)), n0)
  | S fuel' =>
      match pickDigits x num den n0 k with
      | Some r => r
      | None => shortest x num den n0 fuel' (k + 1)
      end
  end.

Definition formatNumber (s n : Z) : string :=
  let ds := digitsOf s in
  let k := Z.of_nat (String.length ds) in
  if (k <=? n) && (n <=? 21) then ds +:+ zeros (n - k)
  else if (0 <? n) && (n <=? 21) then
    substring 0 (Z.to_nat n) ds +:+ "." +:+ substring (Z.to_nat n) (Z.to_nat (k - n)) ds
  else if (-6 <? n) && (n <=? 0) then "0." +:+ zeros (- n) +:+ ds
  else
    let e := n - 1 in
    let es := (if 0 <=? e then "+" else "-") +:+ digitsOf (Z.abs e) in
    if k =? 1 then ds +:+ "e" +:+ es
    else substring 0 1 ds +:+ "." +:+ substring 1 (Z.to_nat (k - 1)) ds +:+ "e" +:+ es.

Definition NumberToString (x : float) : string :=
  match Prim2SF x with
  | S754_nan => "NaN"
  | S754_zero _ => "0"
  | S754_infinity s => if s then "-Infinity" else "Infinity"
  | S754_finite s m e =>
      let '(num, den) := if 0 <=? e then (Zpos m * 2 ^ e, 1) else (Zpos m, 2 ^ (- e)) in
      let '(d, n) := shortest (PrimFloat.abs x) num den (decimalExponent num den) 17 1 in
      (if s then "-" else "") +:+ formatNumber d n
  end.

(** *** Conversions of values *)

(** ToNumber *)
Definition ToNumber (v : value) : float :=
  match v with
  | VUndefined => PrimFloat.nan
  | VNull => PrimFloat.zero
  | VBool b => if b then PrimFloat.one else PrimFloat.zero
  | VNum n => n
  | VStr s => StringToNumber s
  | VObject _ text => StringToNumber text
  end.

(** ToString, as a template literal applies it. *)
Definition ToString (v : value) : string :=
  match v with
  | VUndefined => "undefined"
  | VNull => "null"
  | VBool b => if b then "true" else "false"
  | VNum n => NumberToString n
  | VStr s => s
  | VObject _ text => text
  end.

(** The method call [v.toString()]: [null] and [undefined] have no
    properties, reading one is a [TypeError]. *)
Definition toString (v : value) : result string :=
  match v with
  | VUndefined | VNull => Throw TypeError
  | _ => Ok (ToString v)
  end.

(** ToPrimitive *)
Definition ToPrimitive (v : value) : value :=
  match v with
  | VObject _ text => VStr text
  | _ => v
  end.

(** [x == y] (IsLooselyEqual): [null] and [undefined] equal each other and
    nothing else; two objects are equal when they are the same object;
    otherwise objects are converted to primitives, then two strings
    compare as strings and any other pair compares by Number value. *)
Definition looseEq (x y : value) : bool :=
  match x, y with
  | VUndefined, VUndefined | VUndefined, VNull
  | VNull, VUndefined | VNull, VNull => true
  | VUndefined, _ | VNull, _ | _, VUndefined | _, VNull => false
  | VObject i _, VObject j _ => Pos.eqb i j
  | _, _ =>
      match ToPrimitive x, ToPrimitive y with
      | VStr s, VStr t => String.eqb s t
      | px, py => PrimFloat.eqb (ToNumber px) (ToNumber py)
      end
  end.

(** [v.split(sep)]: only a string has the method; on [null] or [undefined]
    reading it, and on any other value calling what is read, is a
    [TypeError]. *)
Definition splitOn (sep : ascii) (v : value) : result (list string) :=
  match v with
  | VStr s => Ok (split sep s)
  | _ => Throw TypeError
  end.

(** [v === s] for a string [s] (IsStrictlyEqual). *)
Definition strictEqString (s : string) (v : value) : bool :=
  match v with
  | VStr s' => String.eqb s s'
  | _ => false
  end.

(** [v === undefined] *)
Definition isUndefined (v : value) : bool :=
  match v with
  | VUndefined => true
  | _ => false
  end.

(** The relational operators with a number on the right: the left operand
    goes through ToNumber, and a comparison with NaN is false. *)
Definition gt (v : value) (n : float) : bool := PrimFloat.ltb n (ToNumber v).
Definition lt (v : value) (n : float) : bool := PrimFloat.ltb (ToNumber v) n.
Definition ge (v : value) (n : float) : bool := PrimFloat.leb n (ToNumber v).
Definition le (v : value) (n : float) : bool := PrimFloat.leb (ToNumber v) n.

(** [Array.prototype.every] with a callback that may throw: elements are
    visited in order, the first false result stops the visit, and an
    exception of the callback is the exception of the call. *)
Fixpoint every {A : Type} (f : A -> result bool) (l : list A) : result bool :=
  match l with
  | [] => Ok true
  | a :: l' =>
      match f a with
      | Ok true => every f l'
      | Ok false => Ok false
      | Throw e => Throw e
      end
  end.

(** An array element read by index; a missing one is [undefined], whose
    Number value is NaN. *)
Definition elementNumber (l : list float) (i : nat) : float :=
  nth i l PrimFloat.nan.

(** A [Map] from strings to numbers keeps its keys in insertion order;
    [set] on a key already there replaces the amount in place. *)
Definition Map : Type := list (string * float).

Fixpoint set (m : Map) (k : string) (v : float) : Map :=
  match m with
  | [] => [(k, v)]
  | (k', v') :: m' =>
      if String.eqb k' k then (k, v) :: m' else (k', v') :: set m' k v
  end.

Definition values (m : Map) : list float := map snd m.

(** An object used as a record: its own properties, and the properties it
    inherits along its prototype chain.  Reading a property looks among
    the own ones first, then among the inherited ones; a property found
    nowhere reads as [undefined]. *)
Record object : Type := {
  own : gmap string value;
  inherited : gmap string value
}.

Definition get (o : object) (k : string) : value :=
  match own o !! k with
  | Some v => v
  | None =>
      match inherited o !! k with
      | Some v => v
      | None => VUndefined
      end
  end.

(** A built-in function, with the text V8 gives for it. *)
Definition nativeFunction (ref : positive) (name : string) : value :=
  VObject ref ("function " +:+ name +:+ "() { [native code] }").

(** What every ordinary object inherits from [Object.prototype]; reading
    [__proto__] gives that prototype itself. *)
Definition ObjectPrototype : gmap string value :=
  {[ "constructor" := nativeFunction 1 "Object";
     "__defineGetter__" := nativeFunction 2 "__defineGetter__";
     "__defineSetter__" := nativeFunction 3 "__defineSetter__";
     "hasOwnProperty" := nativeFunction 4 "hasOwnProperty";
     "__lookupGetter__" := nativeFunction 5 "__lookupGetter__";
     "__lookupSetter__" := nativeFunction 6 "__lookupSetter__";
     "isPrototypeOf" := nativeFunction 7 "isPrototypeOf";
     "propertyIsEnumerable" := nativeFunction 8 "propertyIsEnumerable";
     "toString" := nativeFunction 9 "toString";
     "valueOf" := nativeFunction 10 "valueOf";
     "toLocaleString" := nativeFunction 11 "toLocaleString";
     "__proto__" := VObject 12 "[object Object]" ]}.

(** The object an object literal creates. *)
Definition literal (fields : gmap string value) : object :=
  {| own := fields; inherited := ObjectPrototype |}.

End JS.

Import JS.

Declare Scope js_scope.
Notation "'let*' x ':=' e 'in' k" := (JS.bind e (fun x => k))
  (at level 10, x name, e at level 200, k at level 200) : js_scope.
Local Open Scope js_scope.
Local Open Scope float_scope.

(** ** Enumerations ([src/models/rate_card_version.js]) *)

Module RateType.
Definition FIXED : string := "FIXED".
Definition PER_KM : string := "PER_KM".
Definition PER_KG : string := "PER_KG".
Definition PER_CBM : string := "PER_CBM".
Definition SLAB_BASED : string := "SLAB_BASED".
Definition ZONE_BASED : string := "ZONE_BASED".
End RateType.

Module ConditionOperator.
Definition EQUALS : string := "EQUALS".
Definition NOT_EQUALS : string := "NOT_EQUALS".
Definition GREATER_THAN : string := "GREATER_THAN".
Definition LESS_THAN : string := "LESS_THAN".
Definition GREATER_THAN_EQUAL : string := "GREATER_THAN_EQUAL".
Definition LESS_THAN_EQUAL : string := "LESS_THAN_EQUAL".
Definition BETWEEN : string := "BETWEEN".
Definition IN : string := "IN".
Definition NOT_IN : string := "NOT_IN".
Definition CONTAINS : string := "CONTAINS".
End ConditionOperator.

(** The trip being priced: [origin], [destination], [vehicleType],
    [distance], [weight], [volume], [id] and whatever conditions name. *)
Abbreviation TripData := JS.object.

(** ** RateCondition ([src/models/rate_item.js]) *)

Module RateCondition.
Import ConditionOperator.

Record t : Type := {
  parameter : string;
  operator : string;
  value : JS.value
}.

Definition evaluate (this : t) (tripData : TripData) : result bool :=
  let paramValue := get tripData (parameter this) in
  if isUndefined paramValue then Ok false
  else
    let op := operator this in
    if String.eqb op EQUALS then Ok (looseEq paramValue (value this))
    else if String.eqb op NOT_EQUALS then Ok (negb (looseEq paramValue (value this)))
    else if String.eqb op GREATER_THAN then
      Ok (gt paramValue (parseFloat (ToString (value this))))
    else if String.eqb op LESS_THAN then
      Ok (lt paramValue (parseFloat (ToString (value this))))
    else if String.eqb op GREATER_THAN_EQUAL then
      Ok (ge paramValue (parseFloat (ToString (value this))))
    else if String.eqb op LESS_THAN_EQUAL then
      Ok (le paramValue (parseFloat (ToString (value this))))
    else if String.eqb op BETWEEN then
      let* parts := splitOn "," (value this) in
      let bounds := map (fun v => parseFloat (trim v)) parts in
      let min := elementNumber bounds 0 in
      let max := elementNumber bounds 1 in
      Ok (ge paramValue min && le paramValue max)
    else if String.eqb op IN then
      let* parts := splitOn "," (value this) in
      let values := map trim parts in
      let* s := toString paramValue in
      Ok (arrayIncludes values s)
    else if String.eqb op NOT_IN then
      let* parts := splitOn "," (value this) in
      let excludedValues := map trim parts in
      let* s := toString paramValue in
      Ok (negb (arrayIncludes excludedValues s))
    else if String.eqb op CONTAINS then
      let* s := toString paramValue in
      Ok (includes s (ToString (value this)))
    else Throw (Error ("Unsupported condition operator: " +:+ op)).

End RateCondition.

(** ** AdditionalCharge ([src/models/additional_charge.js]) *)

Module AdditionalCharge.

Record t : Type := {
  name : string;
  type : string;
  value : float;
  isPercentage : bool;
  conditions : list RateCondition.t
}.

Definition calculate (this : t) (baseAmount : float) (tripData : TripData)
  : result float :=
  let* allConditionsMet :=
    every (fun condition => RateCondition.evaluate condition tripData) (conditions this) in
  if negb allConditionsMet then Ok 0
  else if isPercentage this then Ok (baseAmount * value this / 100)
  else Ok (value this).

End AdditionalCharge.

(** ** FuelAdjustment ([src/services/rate_card_service.js]) *)

Module FuelAdjustment.

Record t : Type := {
  enabled : bool;
  basePrice : float;
  currentPrice : float;
  adjustmentFactor : float
}.

Definition priceChange (this : t) : float := currentPrice this - basePrice this.

Definition percentageChange (this : t) : float :=
  priceChange this / basePrice this * 100.

Definition calculate (this : t) (baseRate : float) : float :=
  if negb (enabled this) || (basePrice this =? 0) then 0
  else
    let adjustmentAmount :=
      baseRate * percentageChange this * adjustmentFactor this / 100 in
    adjustmentAmount.

End FuelAdjustment.

(** ** ChargeCalculation ([src/models/charge_calculation.js]) *)

Module ChargeCalculation.

Record t : Type := {
  baseCharge : float;
  additionalCharges : JS.Map;
  fuelAdjustment : float;
  discounts : JS.Map;
  surcharges : JS.Map;
  totalCharge : float
}.

(** [for (const amount of amounts) total += amount] *)
Fixpoint addEach (total : float) (amounts : list float) : float :=
  match amounts with
  | [] => total
  | amount :: rest => addEach (total + amount) rest
  end.

(** [for (const amount of amounts) total -= amount] *)
Fixpoint subtractEach (total : float) (amounts : list float) : float :=
  match amounts with
  | [] => total
  | amount :: rest => subtractEach (total - amount) rest
  end.

Definition calculateTotalCharge (this : t) : float :=
  let total := baseCharge this in
  let total := addEach total (JS.values (additionalCharges this)) in
  let total := total + fuelAdjustment this in
  let total := addEach total (JS.values (surcharges this)) in
  let total := subtractEach total (JS.values (discounts this)) in
  total.

(** The constructor: the five parts are stored, then [totalCharge] is
    assigned the value of [calculateTotalCharge()]. *)
Definition new (baseCharge : float) (additionalCharges : JS.Map)
    (fuelAdjustment : float) (discounts surcharges : JS.Map) : t :=
  let this :=
    {| baseCharge := baseCharge; additionalCharges := additionalCharges;
       fuelAdjustment := fuelAdjustment; discounts := discounts;
       surcharges := surcharges; totalCharge := PrimFloat.nan |} in
  {| baseCharge := baseCharge; additionalCharges := additionalCharges;
     fuelAdjustment := fuelAdjustment; discounts := discounts;
     surcharges := surcharges; totalCharge := calculateTotalCharge this |}.

Record ChargeBreakdown : Type := {
  bd_baseCharge : float;
  bd_additionalCharges : list (string * float);
  bd_fuelAdjustment : float;
  bd_discounts : list (string * float);
  bd_surcharges : list (string * float);
  bd_totalCharge : float
}.

Definition breakdown (this : t) : ChargeBreakdown :=
  {| bd_baseCharge := baseCharge this;
     bd_additionalCharges := additionalCharges this;
     bd_fuelAdjustment := fuelAdjustment this;
     bd_discounts := discounts this;
     bd_surcharges := surcharges this;
     bd_totalCharge := totalCharge this |}.

End ChargeCalculation.

(** ** RateItem ([src/models/rate_item.js]) *)

Module RateItem.
Import RateType.

Record t : Type := {
  id : string;
  origin : string;
  destination : string;
  vehicleType : string;
  rateType : string;
  baseRate : float;
  minCharge : float;
  additionalCharges : list AdditionalCharge.t;
  conditions : list RateCondition.t;
  fuelAdjustment : FuelAdjustment.t
}.

(** The [switch] on the rate type. *)
Definition rateTypeCharge (this : t) (tripData : TripData) : result float :=
  let rt := rateType this in
  if String.eqb rt FIXED then Ok (baseRate this)
  else if String.eqb rt PER_KM then Ok (baseRate this * ToNumber (get tripData "distance"))
  else if String.eqb rt PER_KG then Ok (baseRate this * ToNumber (get tripData "weight"))
  else if String.eqb rt PER_CBM then Ok (baseRate this * ToNumber (get tripData "volume"))
  else if String.eqb rt SLAB_BASED then Ok (baseRate this)
  else if String.eqb rt ZONE_BASED then Ok (baseRate this)
  else Throw (Error ("Unsupported rate type: " +:+ rt)).

(** The loop over the additional charges, filling the map. *)
Fixpoint collectCharges (charges : list AdditionalCharge.t) (baseCharge : float)
    (tripData : TripData) (additionalCharges : JS.Map) : result JS.Map :=
  match charges with
  | [] => Ok additionalCharges
  | charge :: rest =>
      let* chargeAmount := AdditionalCharge.calculate charge baseCharge tripData in
      collectCharges rest baseCharge tripData
        (JS.set additionalCharges (AdditionalCharge.name charge) chargeAmount)
  end.

Definition calculateCharge (this : t) (tripData : TripData)
  : result ChargeCalculation.t :=
  let* allConditionsMet :=
    every (fun condition => RateCondition.evaluate condition tripData) (conditions this) in
  if negb allConditionsMet then Throw (Error "Trip does not meet all rate conditions")
  else
    let* baseCharge := rateTypeCharge this tripData in
    let baseCharge := if baseCharge <? minCharge this then minCharge this else baseCharge in
    let* additionalCharges :=
      collectCharges (additionalCharges this) baseCharge tripData [] in
    let fuelAdjustment := FuelAdjustment.calculate (fuelAdjustment this) baseCharge in
    Ok (ChargeCalculation.new baseCharge additionalCharges fuelAdjustment [] []).

Definition matchesCriteria (this : t) (origin destination vehicleType : JS.value) : bool :=
  (String.eqb (RateItem.origin this) "*" || strictEqString (RateItem.origin this) origin)
  && (String.eqb (RateItem.destination this) "*"
      || strictEqString (RateItem.destination this) destination)
  && (String.eqb (RateItem.vehicleType this) "*"
      || strictEqString (RateItem.vehicleType this) vehicleType).

End RateItem.

(** ** RateCard ([src/models/rate_item.js]) *)

Module RateCard.

Record t : Type := {
  id : string;
  rateItems : list RateItem.t
}.

Definition applicableItems (this : t) (tripData : TripData) : list RateItem.t :=
  List.filter
    (fun item => RateItem.matchesCriteria item (get tripData "origin")
                   (get tripData "destination") (get tripData "vehicleType"))
    (rateItems this).

Definition calculateRate (this : t) (tripData : TripData)
  : result ChargeCalculation.t :=
  let applicableItems := applicableItems this tripData in
  if (length applicableItems =? 0)%nat then
    Throw (Error ("No applicable rate found for trip: " +:+ ToString (get tripData "id")))
  else
    match applicableItems with
    | rateItem :: _ => RateItem.calculateCharge rateItem tripData
    | [] => Throw TypeError
    end.

End RateCard.

(** ** The failures of the engine, by the names the specification gives them

    The code throws plain [Error]s; the message tells them apart. *)

Module Errors.
Definition NoApplicableRuleError (tripId : string) : exn :=
  Error ("No applicable rate found for trip: " +:+ tripId).
Definition ConditionsNotMetError : exn :=
  Error "Trip does not meet all rate conditions".
Definition UnsupportedRateTypeError (rateType : string) : exn :=
  Error ("Unsupported rate type: " +:+ rateType).
Definition UnsupportedOperatorError (operator : string) : exn :=
  Error ("Unsupported condition operator: " +:+ operator).
End Errors.

(** ** Vocabulary of the statements *)

(** The operand has no prefix that is a decimal literal. *)
Definition unparsable (operand : string) : Prop :=
  scanStrDecimalLiteral (trimStart operand) = None.

Definition numericOperators : list string :=
  [ConditionOperator.GREATER_THAN; ConditionOperator.LESS_THAN;
   ConditionOperator.GREATER_THAN_EQUAL; ConditionOperator.LESS_THAN_EQUAL].

Definition supportedOperators : list string :=
  [ConditionOperator.EQUALS; ConditionOperator.NOT_EQUALS;
   ConditionOperator.GREATER_THAN; ConditionOperator.LESS_THAN;
   ConditionOperator.GREATER_THAN_EQUAL; ConditionOperator.LESS_THAN_EQUAL;
   ConditionOperator.BETWEEN; ConditionOperator.IN; ConditionOperator.NOT_IN;
   ConditionOperator.CONTAINS].

(** The [i]-th part of a BETWEEN operand gives no bound: it is missing or
    it is unparsable. *)
Definition noBound (parts : list string) (i : nat) : Prop :=
  match nth_error parts i with
  | Some part => unparsable (trim part)
  | None => True
  end.

(** The condition evaluates on the trip without raising an error. *)
Definition evaluatesCleanly (tripData : TripData) (c : RateCondition.t) : Prop :=
  exists b, RateCondition.evaluate c tripData = Ok b.

(** The condition holds on the trip. *)
Definition holds (tripData : TripData) (c : RateCondition.t) : Prop :=
  RateCondition.evaluate c tripData = Ok true.

(** What an applicable charge component contributes: a percentage of the
    base charge, or an absolute amount. *)
Definition contribution (charge : AdditionalCharge.t) (baseCharge : float) : float :=
  if AdditionalCharge.isPercentage charge
  then baseCharge * AdditionalCharge.value charge / 100
  else AdditionalCharge.value charge.

(** The base charge a rate type asks for, before the minimum charge applies.
    The enumeration calls the per-distance, per-weight and per-volume types
    [PER_KM], [PER_KG] and [PER_CBM]. *)
Inductive baseChargeByType (rule : RateItem.t) (tripData : TripData) : float -> Prop :=
  | charge_fixed :
      RateItem.rateType rule = RateType.FIXED ->
      baseChargeByType rule tripData (RateItem.baseRate rule)
  | charge_per_distance :
      RateItem.rateType rule = RateType.PER_KM ->
      baseChargeByType rule tripData
        (RateItem.baseRate rule * ToNumber (get tripData "distance"))
  | charge_per_weight :
      RateItem.rateType rule = RateType.PER_KG ->
      baseChargeByType rule tripData
        (RateItem.baseRate rule * ToNumber (get tripData "weight"))
  | charge_per_volume :
      RateItem.rateType rule = RateType.PER_CBM ->
      baseChargeByType rule tripData
        (RateItem.baseRate rule * ToNumber (get tripData "volume"))
  | charge_slab_based :
      RateItem.rateType rule = RateType.SLAB_BASED ->
      baseChargeByType rule tripData (RateItem.baseRate rule)
  | charge_zone_based :
      RateItem.rateType rule = RateType.ZONE_BASED ->
      baseChargeByType rule tripData (RateItem.baseRate rule).

(** The total as the specification composes it, the amounts of a mapping
    taken in its order and each operation rounding as binary64 does:
    base, plus the additional charges, plus the fuel adjustment, plus the
    surcharges, minus the discounts. *)
Definition composedTotal (cc : ChargeCalculation.t) : float :=
  fold_left (fun total amount => total - amount)
    (JS.values (ChargeCalculation.discounts cc))
    (fold_left (fun total amount => total + amount)
       (JS.values (ChargeCalculation.surcharges cc))
       (fold_left (fun total amount => total + amount)
          (JS.values (ChargeCalculation.additionalCharges cc))
          (ChargeCalculation.baseCharge cc)
        + ChargeCalculation.fuelAdjustment cc)).

(** A matching key of a rule fits a field of the trip: it is the wildcard
    marker, or the field is that very string. *)
Definition keyMatches (key : string) (field : JS.value) : Prop :=
  key = "*" \/ field = VStr key.

Definition keysMatch (rule : RateItem.t) (tripData : TripData) : Prop :=
  keyMatches (RateItem.origin rule) (get tripData "origin")
  /\ keyMatches (RateItem.destination rule) (get tripData "destination")
  /\ keyMatches (RateItem.vehicleType rule) (get tripData "vehicleType").

(** Signs of binary64 values, read on their specification: strictly
    positive, strictly negative, and "of sign [s] unless zero or NaN". *)
Definition positiveSF (x : spec_float) : Prop :=
  match x with
  | S754_infinity false | S754_finite false _ _ => True
  | _ => False
  end.

Definition negativeSF (x : spec_float) : Prop :=
  match x with
  | S754_infinity true | S754_finite true _ _ => True
  | _ => False
  end.

Definition weakSign (s : bool) (x : spec_float) : Prop :=
  match x with
  | S754_nan | S754_zero _ => True
  | S754_infinity s' | S754_finite s' _ _ => s' = s
  end.

(** Sample rules and trips on which the statements are exercised. *)
Module Samples.

Definition emptyTrip : TripData := literal ∅.

Definition trip : TripData :=
  literal {[ "id" := VStr "T-17"; "origin" := VStr "AMS"; "destination" := VStr "RTM";
             "vehicleType" := VStr "TRUCK"; "distance" := VNum 8 ]}.

(** A condition with a text as operand. *)
Definition condition (parameter operator value : string) : RateCondition.t :=
  {| RateCondition.parameter := parameter; RateCondition.operator := operator;
     RateCondition.value := VStr value |}.

(** An operator outside the enumeration, then a condition on a field the
    trip does not have. *)
Definition brokenThenFalse : list RateCondition.t :=
  [condition "distance" "MATCHES" "8"; condition "cargoClass" "EQUALS" "FRAGILE"].

Definition handling (conditions : list RateCondition.t) : AdditionalCharge.t :=
  {| AdditionalCharge.name := "Handling"; AdditionalCharge.type := "LOADING";
     AdditionalCharge.value := 10; AdditionalCharge.isPercentage := true;
     AdditionalCharge.conditions := conditions |}.

Definition fuel (adjustmentFactor : float) : FuelAdjustment.t :=
  {| FuelAdjustment.enabled := true; FuelAdjustment.basePrice := 100;
     FuelAdjustment.currentPrice := 90;
     FuelAdjustment.adjustmentFactor := adjustmentFactor |}.

Definition rule (origin rateType : string) (baseRate minCharge : float)
    (conditions : list RateCondition.t) : RateItem.t :=
  {| RateItem.id := "R-" +:+ origin; RateItem.origin := origin;
     RateItem.destination := "*"; RateItem.vehicleType := "TRUCK";
     RateItem.rateType := rateType; RateItem.baseRate := baseRate;
     RateItem.minCharge := minCharge;
     RateItem.additionalCharges := [handling []];
     RateItem.conditions := conditions;
     RateItem.fuelAdjustment := fuel 0.5 |}.

Definition catalog (rules : list RateItem.t) : RateCard.t :=
  {| RateCard.id := "RC-1"; RateCard.rateItems := rules |}.

End Samples.

(** ** RateCardStatus ([src/models/rate_card_version.js]) *)

Module RateCardStatus.
Definition DRAFT : string := "DRAFT".
Definition PENDING_APPROVAL : string := "PENDING_APPROVAL".
Definition ACTIVE : string := "ACTIVE".
Definition REJECTED : string := "REJECTED".
Definition EXPIRED : string := "EXPIRED".
Definition ARCHIVED : string := "ARCHIVED".
End RateCardStatus.

(** ** RateCard: editing the rate items ([src/models/rate_item.js])

    The editing methods also write the [rateCardId] of an item, the
    reference to the card that owns it; a stored item is the pricing rule
    together with that reference.  The methods update the card in place:
    each is modelled by the card it leaves and the value it returns.  The
    card is given by the contents of the objects its array refers to, place
    by place.  [updateRateItem] writes into the object it is passed, which
    may be one the card holds already: the places that refer to it are an
    argument of the method.  The item passed to [addRateItem] is taken to
    be a new object. *)

Module RateCardItems.

Record StoredItem : Type := {
  rule : RateItem.t;
  rateCardId : JS.value
}.

Definition itemId (item : StoredItem) : string := RateItem.id (rule item).

(** [item.id = id] *)
Definition assignId (item : StoredItem) (id : string) : StoredItem :=
  {| rule :=
       {| RateItem.id := id;
          RateItem.origin := RateItem.origin (rule item);
          RateItem.destination := RateItem.destination (rule item);
          RateItem.vehicleType := RateItem.vehicleType (rule item);
          RateItem.rateType := RateItem.rateType (rule item);
          RateItem.baseRate := RateItem.baseRate (rule item);
          RateItem.minCharge := RateItem.minCharge (rule item);
          RateItem.additionalCharges := RateItem.additionalCharges (rule item);
          RateItem.conditions := RateItem.conditions (rule item);
          RateItem.fuelAdjustment := RateItem.fuelAdjustment (rule item) |};
     rateCardId := rateCardId item |}.

(** [item.rateCardId = id] *)
Definition assignRateCardId (item : StoredItem) (id : string) : StoredItem :=
  {| rule := rule item; rateCardId := VStr id |}.

Record t : Type := {
  id : string;
  rateItems : list StoredItem
}.

(** [Array.prototype.findIndex]; [None] stands for the index -1. *)
Fixpoint findIndex {A : Type} (p : A -> bool) (l : list A) : option nat :=
  match l with
  | [] => None
  | a :: l' => if p a then Some O else option_map S (findIndex p l')
  end.

(** [generateUUID] is not part of the sources: [uuid] is the identifier
    its call returns.  The empty string is the one falsy identifier. *)
Definition adopted (uuid : string) (this : t) (item : StoredItem) : StoredItem :=
  let item := if String.eqb (itemId item) "" then assignId item uuid else item in
  assignRateCardId item (id this).

Definition addRateItem (uuid : string) (this : t) (item : StoredItem) : t :=
  {| id := id this; rateItems := (rateItems this ++ [adopted uuid this item])%list |}.

Definition removeRateItem (this : t) (itemId' : string) : t * bool :=
  let initialLength := length (rateItems this) in
  let kept := List.filter (fun item => negb (String.eqb (itemId item) itemId'))
                (rateItems this) in
  ({| id := id this; rateItems := kept |}, (length kept <? initialLength)%nat).

Definition isAmong (place : nat) (places : list nat) : bool :=
  existsb (Nat.eqb place) places.

(** The item passed is an object, which the card may hold already:
    [elsewhere] lists the places of [rateItems] that refer to that very
    object (none when it is not one of the card's).  After the index is
    found, the identifier and the owner are written into the object, so
    every place that refers to it shows them; then the object is stored at
    the index. *)
Definition updateRateItem (this : t) (itemId' : string) (updatedItem : StoredItem)
    (elsewhere : list nat) : t * bool :=
  match findIndex (fun item => String.eqb (itemId item) itemId') (rateItems this) with
  | None => (this, false)
  | Some index =>
      let updatedItem := assignId updatedItem itemId' in
      let updatedItem := assignRateCardId updatedItem (id this) in
      let rateItems :=
        imap (fun place item => if isAmong place elsewhere then updatedItem else item)
          (rateItems this) in
      ({| id := id this; rateItems := <[index := updatedItem]> rateItems |}, true)
  end.

Definition clearRateItems (this : t) : t :=
  {| id := id this; rateItems := [] |}.

(** The card as [calculateRate] reads it. *)
Definition pricing (this : t) : RateCard.t :=
  {| RateCard.id := id this; RateCard.rateItems := map rule (rateItems this) |}.

Definition calculateRate (this : t) (tripData : TripData) : result ChargeCalculation.t :=
  RateCard.calculateRate (pricing this) tripData.

End RateCardItems.

(** ** RateCard: status and period of validity ([src/models/rate_item.js])

    A [Date] is modelled by its time value, the number it compares as; the
    time value of an invalid date is NaN.  [now] is the time value of the
    [new Date()] the methods take. *)

Module RateCardValidity.

Record t : Type := {
  status : string;
  effectiveFrom : float;
  effectiveTo : option float
}.

Definition isActive (now : float) (this : t) : bool :=
  String.eqb (status this) RateCardStatus.ACTIVE
  && (effectiveFrom this <=? now)
  && match effectiveTo this with
     | None => true
     | Some effectiveTo => now <=? effectiveTo
     end.

(** [this.effectiveTo && this.effectiveTo < now]: [null] when there is no
    end date, a boolean otherwise. *)
Definition isExpired (now : float) (this : t) : JS.value :=
  match effectiveTo this with
  | None => VNull
  | Some effectiveTo => VBool (effectiveTo <? now)
  end.

End RateCardValidity.

(** ** Constructors ([src/models/rate_item.js], [src/services/rate_card_service.js])

    A constructor takes one object and destructures it in its parameter
    list; a property that is not given takes its default.  [None] stands
    for a property, or the whole object, that is not given. *)

Module Constructors.

Definition orDefault {A : Type} (given : option A) (default : A) : A :=
  match given with
  | Some a => a
  | None => default
  end.

(** A property given as [undefined] takes its default as well. *)
Definition orDefaultValue (given : option JS.value) (default : JS.value) : JS.value :=
  match given with
  | Some VUndefined | None => default
  | Some v => v
  end.

(** [parseFloat] of any value: the value goes through ToString first. *)
Definition parseFloatOf (v : JS.value) : float := parseFloat (ToString v).

Record FuelAdjustmentArgs : Type := {
  enabled : option bool;
  basePrice : option JS.value;
  currentPrice : option JS.value;
  adjustmentFactor : option JS.value
}.

(** [new FuelAdjustment(args)]: destructuring an object that is not given
    is a [TypeError]. *)
Definition newFuelAdjustment (args : option FuelAdjustmentArgs) : result FuelAdjustment.t :=
  match args with
  | None => Throw TypeError
  | Some a =>
      Ok {| FuelAdjustment.enabled := orDefault (enabled a) false;
            FuelAdjustment.basePrice := parseFloatOf (orDefaultValue (basePrice a) (VNum 0));
            FuelAdjustment.currentPrice :=
              parseFloatOf (orDefaultValue (currentPrice a) (VNum 0));
            FuelAdjustment.adjustmentFactor :=
              parseFloatOf (orDefaultValue (adjustmentFactor a) (VNum 0)) |}
  end.

Record RateItemArgs : Type := {
  id : option string;
  rateCardId : JS.value;
  origin : string;
  destination : string;
  vehicleType : string;
  rateType : string;
  baseRate : JS.value;
  minCharge : option JS.value;
  additionalCharges : option (list AdditionalCharge.t);
  conditions : option (list RateCondition.t);
  fuelAdjustment : option FuelAdjustment.t
}.

(** [id || generateUUID()], [uuid] being what the call returns. *)
Definition idOr (uuid : string) (id : option string) : string :=
  match id with
  | Some i => if String.eqb i "" then uuid else i
  | None => uuid
  end.

(** [new RateItem(args)]: the defaults of the parameter list are evaluated
    first, the one of [fuelAdjustment] being [new FuelAdjustment()]; then
    the body fills the object. *)
Definition newRateItem (uuid : string) (args : option RateItemArgs)
  : result RateCardItems.StoredItem :=
  match args with
  | None => Throw TypeError
  | Some a =>
      let minCharge := orDefaultValue (minCharge a) (VNum 0) in
      let additionalCharges := orDefault (additionalCharges a) [] in
      let conditions := orDefault (conditions a) [] in
      let* fuelAdjustment :=
        match fuelAdjustment a with
        | Some given => Ok given
        | None => newFuelAdjustment None
        end in
      Ok {| RateCardItems.rule :=
              {| RateItem.id := idOr uuid (id a);
                 RateItem.origin := origin a;
                 RateItem.destination := destination a;
                 RateItem.vehicleType := vehicleType a;
                 RateItem.rateType := rateType a;
                 RateItem.baseRate := parseFloatOf (baseRate a);
                 RateItem.minCharge := parseFloatOf minCharge;
                 RateItem.additionalCharges := additionalCharges;
                 RateItem.conditions := conditions;
                 RateItem.fuelAdjustment := fuelAdjustment |};
            RateCardItems.rateCardId := rateCardId a |}
  end.

End Constructors.

(** ** Further vocabulary *)

(** The outcome of the opposite test: the same error, or the other answer. *)
Definition negated (r : result bool) : result bool :=
  match r with
  | Ok b => Ok (negb b)
  | Throw e => Throw e
  end.

(** The string has no comma. *)
Fixpoint commaFree (s : string) : bool :=
  match s with
  | EmptyString => true
  | String c r => negb (Ascii.eqb c ",") && commaFree r
  end.

Definition rateTypes : list string :=
  [RateType.FIXED; RateType.PER_KM; RateType.PER_KG; RateType.PER_CBM;
   RateType.SLAB_BASED; RateType.ZONE_BASED].

(** Operators that call [toString] on the value of the parameter. *)
Definition stringOperators : list string :=
  [ConditionOperator.IN; ConditionOperator.NOT_IN; ConditionOperator.CONTAINS].

(** Operators that call [split] on the operand. *)
Definition splitOperators : list string :=
  [ConditionOperator.BETWEEN; ConditionOperator.IN; ConditionOperator.NOT_IN].

Definition isText (v : JS.value) : bool :=
  match v with
  | VStr _ => true
  | _ => false
  end.

(** What makes the evaluation of a condition raise a [TypeError]: [split]
    called on an operand that is not a text, or [toString] called on a
    parameter whose value is [null]. *)
Definition typeErrorCause (c : RateCondition.t) (tripData : TripData) : Prop :=
  (In (RateCondition.operator c) splitOperators /\ isText (RateCondition.value c) = false)
  \/ (In (RateCondition.operator c) stringOperators
      /\ get tripData (RateCondition.parameter c) = VNull).

(** The field of the trip a proportional rate type multiplies the base
    rate by. *)
Definition measuredField (rateType : string) : option string :=
  if String.eqb rateType RateType.PER_KM then Some "distance"
  else if String.eqb rateType RateType.PER_KG then Some "weight"
  else if String.eqb rateType RateType.PER_CBM then Some "volume"
  else None.

(** The conditions a rule evaluates: its own and those of its additional
    charges. *)
Definition conditionsOf (rule : RateItem.t) : list RateCondition.t :=
  (RateItem.conditions rule
   ++ flat_map AdditionalCharge.conditions (RateItem.additionalCharges rule))%list.

(** The amount a mapping holds for a name. *)
Fixpoint amountOf (m : JS.Map) (name : string) : option float :=
  match m with
  | [] => None
  | (k, v) :: m' => if String.eqb k name then Some v else amountOf m' name
  end.

(** The name is among the keys. *)
Definition named (name : string) (keys : list string) : bool :=
  existsb (fun key => String.eqb key name) keys.

(** The names of a list, each kept where it occurs first. *)
Fixpoint firstOccurrences (names : list string) : list string :=
  match names with
  | [] => []
  | name :: rest =>
      name :: List.filter (fun n => negb (String.eqb n name)) (firstOccurrences rest)
  end.

(** Every item of the card refers to the card as its owner. *)
Definition owned (card : RateCardItems.t) : Prop :=
  Forall (fun item => RateCardItems.rateCardId item = VStr (RateCardItems.id card))
    (RateCardItems.rateItems card).

(** All three matching keys of the rule are the wildcard marker. *)
Definition catchAll (rule : RateItem.t) : Prop :=
  RateItem.origin rule = "*" /\ RateItem.destination rule = "*"
  /\ RateItem.vehicleType rule = "*".

(** No item of the card has the identifier. *)
Definition fresh (card : RateCardItems.t) (itemId : string) : Prop :=
  Forall (fun item => RateCardItems.itemId item <> itemId) (RateCardItems.rateItems card).

(** The item as [updateRateItem] leaves it: the identifier and the card
    written into it. *)
Definition written (card : RateCardItems.t) (itemId : string)
    (item : RateCardItems.StoredItem) : RateCardItems.StoredItem :=
  RateCardItems.assignRateCardId (RateCardItems.assignId item itemId) (RateCardItems.id card).

(** The rule of a stored item matches the trip. *)
Definition itemMatches (tripData : TripData) (item : RateCardItems.StoredItem) : Prop :=
  keysMatch (RateCardItems.rule item) tripData.

(** Zeros, finite numbers and finite non-zero numbers, read on the
    specification of binary64. *)
Definition zeroSF (x : spec_float) : Prop :=
  match x with
  | S754_zero _ => True
  | _ => False
  end.

Definition finiteSF (x : spec_float) : Prop :=
  match x with
  | S754_zero _ | S754_finite _ _ _ => True
  | _ => False
  end.

Definition nonzeroSF (x : spec_float) : Prop :=
  match x with
  | S754_finite _ _ _ => True
  | _ => False
  end.

(** The number is a zero or a finite non-zero number. *)
Definition finite (x : float) : bool :=
  match Prim2SF x with
  | S754_zero _ | S754_finite _ _ _ => true
  | _ => false
  end.

(** Further samples. *)
Module MoreSamples.

Definition stored (id origin : string) : RateCardItems.StoredItem :=
  {| RateCardItems.rule :=
       {| RateItem.id := id; RateItem.origin := origin; RateItem.destination := "*";
          RateItem.vehicleType := "*"; RateItem.rateType := RateType.FIXED;
          RateItem.baseRate := 100; RateItem.minCharge := 0;
          RateItem.additionalCharges := []; RateItem.conditions := [];
          RateItem.fuelAdjustment := Samples.fuel 0.5 |};
     RateCardItems.rateCardId := VUndefined |}.

Definition owner (item : RateCardItems.StoredItem) : RateCardItems.StoredItem :=
  RateCardItems.assignRateCardId item "RC-1".

Definition card (items : list RateCardItems.StoredItem) : RateCardItems.t :=
  {| RateCardItems.id := "RC-1"; RateCardItems.rateItems := items |}.

Definition charge (name : string) (value : float) (isPercentage : bool)
  : AdditionalCharge.t :=
  {| AdditionalCharge.name := name; AdditionalCharge.type := "OTHER";
     AdditionalCharge.value := value; AdditionalCharge.isPercentage := isPercentage;
     AdditionalCharge.conditions := [] |}.

Definition ruleWith (rateType : string) (charges : list AdditionalCharge.t) : RateItem.t :=
  {| RateItem.id := "R-1"; RateItem.origin := "*"; RateItem.destination := "*";
     RateItem.vehicleType := "*"; RateItem.rateType := rateType;
     RateItem.baseRate := 5; RateItem.minCharge := 50;
     RateItem.additionalCharges := charges; RateItem.conditions := [];
     RateItem.fuelAdjustment := Samples.fuel 0.5 |}.

Definition rateItemArgs (baseRate : JS.value) (fuelAdjustment : option FuelAdjustment.t)
  : Constructors.RateItemArgs :=
  {| Constructors.id := None; Constructors.rateCardId := VUndefined;
     Constructors.origin := "AMS"; Constructors.destination := "*";
     Constructors.vehicleType := "*"; Constructors.rateType := RateType.PER_KM;
     Constructors.baseRate := baseRate; Constructors.minCharge := Some (VNum 50);
     Constructors.additionalCharges := None; Constructors.conditions := None;
     Constructors.fuelAdjustment := fuelAdjustment |}.

End MoreSamples.

(** Decide the tests of a [switch] once its subject is known. *)
Ltac decide_cases :=
  repeat match goal with
         | |- context [String.eqb ?a ?b] =>
             let r := eval vm_compute in (String.eqb a b) in
             change (String.eqb a b) with r
         end;
  cbv iota.

(** ** Facts about binary64 comparisons *)

Module FloatFacts.

Lemma Prim2SF_nan : Prim2SF PrimFloat.nan = S754_nan.
Proof. reflexivity. Qed.

Lemma Prim2SF_zero : Prim2SF 0 = S754_zero false.
Proof. reflexivity. Qed.

Lemma SFcompare_nan_r x : SFcompare x S754_nan = None.
Proof. destruct x; reflexivity. Qed.

Lemma ltb_nan_r x : (x <? PrimFloat.nan) = false.
Proof. rewrite ltb_spec, Prim2SF_nan. unfold SFltb. now rewrite SFcompare_nan_r. Qed.

Lemma ltb_nan_l x : (PrimFloat.nan <? x) = false.
Proof. rewrite ltb_spec, Prim2SF_nan. reflexivity. Qed.

Lemma leb_nan_r x : (x <=? PrimFloat.nan) = false.
Proof. rewrite leb_spec, Prim2SF_nan. unfold SFleb. now rewrite SFcompare_nan_r. Qed.

Lemma leb_nan_l x : (PrimFloat.nan <=? x) = false.
Proof. rewrite leb_spec, Prim2SF_nan. reflexivity. Qed.

Lemma ltb_zero_l x : (0 <? x) = true <-> positiveSF (Prim2SF x).
Proof.
  rewrite ltb_spec, Prim2SF_zero. unfold SFltb, SFcompare.
  destruct (Prim2SF x) as [s|s| |s m e]; try destruct s; simpl;
    split; try tauto; discriminate.
Qed.

Lemma ltb_zero_r x : (x <? 0) = true <-> negativeSF (Prim2SF x).
Proof.
  rewrite ltb_spec, Prim2SF_zero. unfold SFltb, SFcompare.
  destruct (Prim2SF x) as [s|s| |s m e]; try destruct s; simpl;
    split; try tauto; discriminate.
Qed.

Lemma negative_weakSign x : negativeSF x -> weakSign true x.
Proof. destruct x as [s|s| |s m e]; try destruct s; simpl; tauto. Qed.

Lemma positive_weakSign x : positiveSF x -> weakSign false x.
Proof. destruct x as [s|s| |s m e]; try destruct s; simpl; tauto. Qed.

Lemma weakSign_not_positive x : weakSign true x -> ~ positiveSF x.
Proof. destruct x as [s|s| |s m e]; simpl; try tauto; now intros ->. Qed.

Lemma weakSign_not_negative x : weakSign false x -> ~ negativeSF x.
Proof. destruct x as [s|s| |s m e]; simpl; try tauto; now intros ->. Qed.

(** Rounding keeps the sign it is given. *)
Lemma binary_round_aux_sign s m e l :
  weakSign s (binary_round_aux prec emax s m e l).
Proof.
  unfold binary_round_aux.
  destruct (shr_fexp prec emax m e l) as [mrs e'].
  destruct (shr_fexp prec emax _ e' loc_Exact) as [mrs' e''].
  destruct (shr_m mrs'); simpl; auto.
  destruct (Z.leb _ _); simpl; auto.
Qed.

Lemma SFmul_weakSign s x y :
  weakSign s x -> positiveSF y -> weakSign s (SFmul prec emax x y).
Proof.
  destruct x as [sx|sx| |sx mx ex], y as [sy|sy| |sy my ey]; simpl; try tauto;
    destruct sy; try tauto; intros Hx _; rewrite ?xorb_false_r; auto.
  subst sx. apply binary_round_aux_sign.
Qed.

Lemma SFmul_weakSign_l s x y :
  positiveSF x -> weakSign s y -> weakSign s (SFmul prec emax x y).
Proof.
  destruct x as [sx|sx| |sx mx ex], y as [sy|sy| |sy my ey]; simpl; try tauto;
    destruct sx; try tauto; intros _ Hy; simpl; auto.
  subst sy. apply binary_round_aux_sign.
Qed.

Lemma SFdiv_weakSign s x y :
  weakSign s x -> positiveSF y -> weakSign s (SFdiv prec emax x y).
Proof.
  destruct x as [sx|sx| |sx mx ex], y as [sy|sy| |sy my ey]; simpl; try tauto;
    destruct sy; try tauto; intros Hx _; rewrite ?xorb_false_r; auto.
  subst sx. destruct (SFdiv_core_binary _ _ _ _ _ _) as [[mz ez] lz].
  rewrite ?xorb_false_r. apply binary_round_aux_sign.
Qed.

Lemma mul_weakSign s x y :
  weakSign s (Prim2SF x) -> (0 <? y) = true -> weakSign s (Prim2SF (x * y)).
Proof.
  intros Hx Hy. rewrite mul_spec. apply SFmul_weakSign; [ exact Hx | now apply ltb_zero_l ].
Qed.

Lemma mul_weakSign_l s x y :
  (0 <? x) = true -> weakSign s (Prim2SF y) -> weakSign s (Prim2SF (x * y)).
Proof.
  intros Hx Hy. rewrite mul_spec. apply SFmul_weakSign_l; [ now apply ltb_zero_l | exact Hy ].
Qed.

Lemma div_weakSign s x y :
  weakSign s (Prim2SF x) -> (0 <? y) = true -> weakSign s (Prim2SF (x / y)).
Proof.
  intros Hx Hy. rewrite div_spec. apply SFdiv_weakSign; [ exact Hx | now apply ltb_zero_l ].
Qed.

End FloatFacts.

(** ** Condition evaluation *)

Section ConditionFacts.
Import RateCondition ConditionOperator Errors.

Lemma parseFloat_unparsable operand :
  unparsable operand -> parseFloat operand = PrimFloat.nan.
Proof. unfold unparsable, parseFloat. now intros ->. Qed.

Lemma elementNumber_noBound parts i :
  noBound parts i ->
  elementNumber (map (fun v => parseFloat (trim v)) parts) i = PrimFloat.nan.
Proof.
  unfold noBound, elementNumber. revert i.
  induction parts as [|part parts IH]; intros [|i]; simpl; auto.
  apply parseFloat_unparsable.
Qed.

Lemma eqb_ne (a b : string) : a <> b -> String.eqb a b = false.
Proof. apply String.eqb_neq. Qed.

Lemma isUndefined_false v : v <> VUndefined -> isUndefined v = false.
Proof. destruct v; simpl; congruence. Qed.

Lemma evaluate_throws c tripData e :
  evaluate c tripData = Throw e ->
  e = TypeError \/ e = UnsupportedOperatorError (operator c).
Proof.
  unfold evaluate, UnsupportedOperatorError.
  destruct (get tripData (parameter c)); simpl; try discriminate;
    repeat (destruct (String.eqb (operator c) _);
            [ try discriminate; destruct (value c); simpl; try discriminate;
              intros [= <-]; now left | ]);
    intros [= <-]; now right.
Qed.

Lemma evaluate_undefined_parameter c tripData :
  get tripData (parameter c) = VUndefined -> evaluate c tripData = Ok false.
Proof. intros Hundefined. unfold evaluate. now rewrite Hundefined. Qed.

(** C7 does not hold of the code: the trip has no field named [toString]
    and none named [constructor], yet [evaluate] does not return false on
    a condition about them.  Reading the parameter finds the member every
    object inherits, so NOT_EQUALS returns true, and an operator outside
    the enumeration makes [evaluate] throw. *)
Theorem evaluate_inherited_parameter :
  own Samples.trip !! "toString" = None
  /\ evaluate (Samples.condition "toString" "NOT_EQUALS" "x") Samples.trip = Ok true
  /\ own Samples.trip !! "constructor" = None
  /\ evaluate (Samples.condition "constructor" "MATCHES" "x") Samples.trip
     = Throw (UnsupportedOperatorError "MATCHES").
Proof.
  split; [ reflexivity | ]. split; [ reflexivity | ].
  split; reflexivity.
Qed.

(** C8, as amended: for a condition whose parameter is present on the
    trip, an unparsable operand of a numeric operator, or a missing or
    unparsable bound in the text operand of BETWEEN, is read as NaN and
    makes [evaluate] return false, no error is raised; an operator outside
    the enumeration makes [evaluate] throw the unsupported-operator
    error. *)
Theorem evaluate_malformed_condition (c : RateCondition.t) (tripData : TripData) :
  get tripData (parameter c) <> VUndefined ->
  (In (operator c) numericOperators -> unparsable (ToString (value c)) ->
   evaluate c tripData = Ok false)
  /\ (operator c = BETWEEN ->
      forall operand, value c = VStr operand ->
      noBound (split "," operand) 0 \/ noBound (split "," operand) 1 ->
      evaluate c tripData = Ok false)
  /\ (~ In (operator c) supportedOperators ->
      evaluate c tripData = Throw (UnsupportedOperatorError (operator c))).
Proof.
  intros Hpresent. apply isUndefined_false in Hpresent.
  unfold evaluate. rewrite Hpresent. repeat split.
  - intros Hop Hbad. rewrite (parseFloat_unparsable _ Hbad).
    unfold gt, lt, ge, le.
    destruct Hop as [<-|[<-|[<-|[<-|[]]]]]; decide_cases;
      now rewrite ?FloatFacts.ltb_nan_l, ?FloatFacts.ltb_nan_r,
                  ?FloatFacts.leb_nan_l, ?FloatFacts.leb_nan_r.
  - intros -> operand -> Hbad. decide_cases. simpl. unfold ge, le.
    destruct Hbad as [Hbad|Hbad]; rewrite (elementNumber_noBound _ _ Hbad).
    + now rewrite FloatFacts.leb_nan_l.
    + rewrite FloatFacts.leb_nan_r. now rewrite andb_false_r.
  - intros Hunsupported.
    repeat (rewrite eqb_ne;
            [ | intros Heq; apply Hunsupported; rewrite Heq; simpl; tauto ]).
    reflexivity.
Qed.

Lemma evaluate_malformed_condition_witness :
  evaluate (Samples.condition "distance" "LESS_THAN_EQUAL" "ten") Samples.trip = Ok false
  /\ evaluate (Samples.condition "distance" "BETWEEN" "5") Samples.trip = Ok false
  /\ evaluate (Samples.condition "distance" "MATCHES" "8") Samples.trip
     = Throw (UnsupportedOperatorError "MATCHES").
Proof.
  assert (Hpresent : get Samples.trip "distance" <> VUndefined) by (vm_compute; discriminate).
  split; [ | split ].
  - apply (proj1 (evaluate_malformed_condition
                    (Samples.condition "distance" "LESS_THAN_EQUAL" "ten") Samples.trip Hpresent)).
    + simpl; tauto.
    + reflexivity.
  - apply (proj1 (proj2 (evaluate_malformed_condition
                    (Samples.condition "distance" "BETWEEN" "5") Samples.trip Hpresent))
             eq_refl "5" eq_refl).
    right; exact I.
  - apply (proj2 (proj2 (evaluate_malformed_condition
                    (Samples.condition "distance" "MATCHES" "8") Samples.trip Hpresent))).
    simpl. intros H; repeat destruct H as [H|H]; try discriminate H; exact H.
Defined.

(** C8, as stated, fails: a GREATER_THAN condition whose operand is not a
    number does not fail with an error, it evaluates to false. *)
Lemma evaluate_unparsable_operand_no_error :
  get Samples.trip "distance" <> VUndefined
  /\ unparsable "heavy"
  /\ ~ (exists e, evaluate (Samples.condition "distance" "GREATER_THAN" "heavy") Samples.trip
                  = Throw e).
Proof.
  split; [ vm_compute; discriminate | ].
  split; [ reflexivity | ].
  intros [e He]. vm_compute in He. discriminate He.
Qed.

End ConditionFacts.

(** ** Conditions combined by [every] *)

Section Every.
Import RateCondition Errors.
Context {A : Type} (f : A -> result bool).

Lemma every_all_true l :
  Forall (fun a => f a = Ok true) l -> every f l = Ok true.
Proof. induction 1 as [|a l Ha _ IH]; simpl; [ reflexivity | now rewrite Ha ]. Qed.

Lemma every_true_inv l :
  every f l = Ok true -> Forall (fun a => f a = Ok true) l.
Proof.
  induction l as [|a l IH]; simpl; [ constructor | ].
  destruct (f a) as [[|]|e] eqn:Ha; try discriminate.
  intros H. constructor; auto.
Qed.

Lemma every_first_false before a after :
  Forall (fun a' => exists b, f a' = Ok b) before ->
  f a = Ok false ->
  every f (before ++ a :: after)%list = Ok false.
Proof.
  intros Hbefore Ha. induction Hbefore as [|a' l [b Hb] _ IH]; simpl.
  - now rewrite Ha.
  - rewrite Hb. now destruct b.
Qed.

Lemma every_clean l :
  Forall (fun a => exists b, f a = Ok b) l -> exists b, every f l = Ok b.
Proof.
  induction 1 as [|a l [b Hb] _ [b' IH]]; simpl; [ eauto | ].
  rewrite Hb. destruct b; eauto.
Qed.

Lemma every_throws l e :
  every f l = Throw e -> exists a, In a l /\ f a = Throw e.
Proof.
  induction l as [|a l IH]; simpl; [ discriminate | ].
  destruct (f a) as [[|]|e'] eqn:Ha; try discriminate.
  - intros H. destruct (IH H) as (a' & Hin & Ha'). eauto.
  - intros [= <-]. eauto.
Qed.

End Every.

(** ** Charge components and rules under their conditions *)

Section Conditions.
Import RateCondition Errors.

Lemma calculate_throws charge baseAmount tripData e :
  AdditionalCharge.calculate charge baseAmount tripData = Throw e ->
  e = TypeError \/ exists op, e = UnsupportedOperatorError op.
Proof.
  unfold AdditionalCharge.calculate.
  destruct (every _ _) as [b|e'] eqn:Hevery; simpl.
  - destruct b; simpl; [ destruct (AdditionalCharge.isPercentage _) | ]; discriminate.
  - intros [= <-]. apply every_throws in Hevery as (c & _ & Hc).
    apply evaluate_throws in Hc as [->| ->]; eauto.
Qed.

Lemma collectCharges_throws charges baseCharge tripData acc e :
  RateItem.collectCharges charges baseCharge tripData acc = Throw e ->
  e = TypeError \/ exists op, e = UnsupportedOperatorError op.
Proof.
  revert acc. induction charges as [|charge rest IH]; simpl; intros acc; [ discriminate | ].
  destruct (AdditionalCharge.calculate charge baseCharge tripData) as [amount|e'] eqn:Hc; simpl.
  - apply IH.
  - intros [= <-]. eapply calculate_throws, Hc.
Qed.

Lemma collectCharges_returns charges baseCharge tripData acc :
  Forall (fun charge => exists amount,
            AdditionalCharge.calculate charge baseCharge tripData = Ok amount) charges ->
  exists additionalCharges,
    RateItem.collectCharges charges baseCharge tripData acc = Ok additionalCharges.
Proof.
  intros Hall. revert acc.
  induction Hall as [|charge rest [amount Hc] _ IH]; simpl; intros acc; [ eauto | ].
  rewrite Hc. simpl. apply IH.
Qed.

(** C5, as amended: the conditions of a charge component are combined with
    a logical AND evaluated in order.  When a condition evaluates to false
    and no condition before it raises an error, the component contributes
    exactly zero; when all hold it contributes [baseCharge * magnitude / 100]
    if its percentage flag is set, and the magnitude otherwise. *)
Theorem additional_charge_calculate (charge : AdditionalCharge.t)
    (baseAmount : float) (tripData : TripData) :
  (forall before c after,
      AdditionalCharge.conditions charge = (before ++ c :: after)%list ->
      Forall (evaluatesCleanly tripData) before ->
      evaluate c tripData = Ok false ->
      AdditionalCharge.calculate charge baseAmount tripData = Ok 0)
  /\ (Forall (holds tripData) (AdditionalCharge.conditions charge) ->
      AdditionalCharge.calculate charge baseAmount tripData
      = Ok (if AdditionalCharge.isPercentage charge
            then baseAmount * AdditionalCharge.value charge / 100
            else AdditionalCharge.value charge)).
Proof.
  unfold AdditionalCharge.calculate. split.
  - intros before c after -> Hbefore Hc.
    now rewrite (every_first_false _ before c after Hbefore Hc).
  - intros Hall. rewrite (every_all_true _ _ Hall). simpl.
    now destruct (AdditionalCharge.isPercentage charge).
Qed.

Lemma additional_charge_calculate_witness :
  AdditionalCharge.calculate
    (Samples.handling [Samples.condition "distance" "GREATER_THAN" "5";
                       Samples.condition "cargoClass" "EQUALS" "FRAGILE"])
    100 Samples.trip = Ok 0
  /\ AdditionalCharge.calculate
       (Samples.handling [Samples.condition "distance" "GREATER_THAN" "5"])
       100 Samples.trip = Ok 10.
Proof.
  split.
  - apply (proj1 (additional_charge_calculate _ 100 Samples.trip)
             [Samples.condition "distance" "GREATER_THAN" "5"]
             (Samples.condition "cargoClass" "EQUALS" "FRAGILE") []).
    + reflexivity.
    + constructor; [ exists true; reflexivity | constructor ].
    + reflexivity.
  - apply (proj2 (additional_charge_calculate
                    (Samples.handling [Samples.condition "distance" "GREATER_THAN" "5"])
                    100 Samples.trip)).
    constructor; [ reflexivity | constructor ].
Defined.

(** C5, as stated, fails: a condition of the component fails, yet the
    component does not contribute zero, because a condition before it
    raises an error and [calculate] throws. *)
Lemma additional_charge_failed_condition_throws :
  In (Samples.condition "cargoClass" "EQUALS" "FRAGILE") Samples.brokenThenFalse
  /\ evaluate (Samples.condition "cargoClass" "EQUALS" "FRAGILE") Samples.trip = Ok false
  /\ AdditionalCharge.calculate (Samples.handling Samples.brokenThenFalse) 100 Samples.trip
     <> Ok 0
  /\ AdditionalCharge.calculate (Samples.handling Samples.brokenThenFalse) 100 Samples.trip
     = Throw (UnsupportedOperatorError "MATCHES").
Proof.
  split; [ simpl; tauto | ].
  split; [ reflexivity | ].
  split; [ vm_compute; discriminate | reflexivity ].
Qed.

(** C9, as amended: when a condition of the rule evaluates to false and no
    condition before it raises an error, [calculateCharge] throws the
    conditions-not-met error; it does not skip the rule or return a zero
    charge.  A charge component with the same conditions contributes zero
    without any error. *)
Theorem calculateCharge_conditions_not_met (rule : RateItem.t) (tripData : TripData)
    (before : list RateCondition.t) (c : RateCondition.t) (after : list RateCondition.t) :
  RateItem.conditions rule = (before ++ c :: after)%list ->
  Forall (evaluatesCleanly tripData) before ->
  evaluate c tripData = Ok false ->
  RateItem.calculateCharge rule tripData = Throw ConditionsNotMetError
  /\ (forall charge baseAmount,
        AdditionalCharge.conditions charge = RateItem.conditions rule ->
        AdditionalCharge.calculate charge baseAmount tripData = Ok 0).
Proof.
  intros Hconds Hbefore Hc. split.
  - unfold RateItem.calculateCharge.
    now rewrite Hconds, (every_first_false _ before c after Hbefore Hc).
  - intros charge baseAmount Hsame. unfold AdditionalCharge.calculate.
    now rewrite Hsame, Hconds, (every_first_false _ before c after Hbefore Hc).
Qed.

Lemma calculateCharge_conditions_not_met_witness :
  RateItem.calculateCharge
    (Samples.rule "AMS" RateType.PER_KM 5 50
       [Samples.condition "distance" "GREATER_THAN" "5";
        Samples.condition "cargoClass" "EQUALS" "FRAGILE"])
    Samples.trip = Throw ConditionsNotMetError.
Proof.
  apply (calculateCharge_conditions_not_met
           (Samples.rule "AMS" RateType.PER_KM 5 50
              [Samples.condition "distance" "GREATER_THAN" "5";
               Samples.condition "cargoClass" "EQUALS" "FRAGILE"])
           Samples.trip
           [Samples.condition "distance" "GREATER_THAN" "5"]
           (Samples.condition "cargoClass" "EQUALS" "FRAGILE") []).
  - reflexivity.
  - constructor; [ exists true; reflexivity | constructor ].
  - reflexivity.
Defined.

(** C9, as stated, fails: a condition of the rule evaluates to false, yet
    [calculateCharge] does not fail with the conditions-not-met error: a
    condition before it has an operator outside the enumeration, and that
    error is the one thrown. *)
Lemma calculateCharge_failed_condition_other_error :
  In (Samples.condition "cargoClass" "EQUALS" "FRAGILE")
     (RateItem.conditions (Samples.rule "AMS" RateType.PER_KM 5 50 Samples.brokenThenFalse))
  /\ evaluate (Samples.condition "cargoClass" "EQUALS" "FRAGILE") Samples.trip = Ok false
  /\ RateItem.calculateCharge
       (Samples.rule "AMS" RateType.PER_KM 5 50 Samples.brokenThenFalse) Samples.trip
     <> Throw ConditionsNotMetError
  /\ RateItem.calculateCharge
       (Samples.rule "AMS" RateType.PER_KM 5 50 Samples.brokenThenFalse) Samples.trip
     = Throw (UnsupportedOperatorError "MATCHES").
Proof.
  split; [ simpl; tauto | ].
  split; [ reflexivity | ].
  split; [ vm_compute; discriminate | reflexivity ].
Qed.

(** C10: on any trip, a rule without conditions never fails with the
    conditions-not-met error, and a charge component without conditions
    always contributes its full amount. *)
Theorem empty_conditions_hold (tripData : TripData) :
  (forall rule,
      RateItem.conditions rule = [] ->
      RateItem.calculateCharge rule tripData <> Throw ConditionsNotMetError)
  /\ (forall charge baseAmount,
        AdditionalCharge.conditions charge = [] ->
        AdditionalCharge.calculate charge baseAmount tripData
        = Ok (contribution charge baseAmount)).
Proof.
  split.
  - intros rule Hnone. unfold RateItem.calculateCharge. rewrite Hnone. simpl.
    destruct (RateItem.rateTypeCharge rule tripData) as [raw|e] eqn:Hraw; simpl.
    + destruct (RateItem.collectCharges _ _ _ _) as [adds|e] eqn:Hadds; simpl;
        [ discriminate | ].
      apply collectCharges_throws in Hadds as [->|[op ->]]; discriminate.
    + revert Hraw. unfold RateItem.rateTypeCharge.
      repeat (destruct (String.eqb (RateItem.rateType rule) _); [ discriminate | ]).
      intros [= <-]. discriminate.
  - intros charge baseAmount Hnone. unfold AdditionalCharge.calculate, contribution.
    rewrite Hnone. simpl. now destruct (AdditionalCharge.isPercentage charge).
Qed.

Lemma empty_conditions_hold_witness :
  RateItem.calculateCharge (Samples.rule "AMS" RateType.PER_KM 5 50 []) Samples.emptyTrip
  <> Throw ConditionsNotMetError
  /\ AdditionalCharge.calculate (Samples.handling []) 100 Samples.emptyTrip = Ok 10.
Proof.
  split.
  - apply (proj1 (empty_conditions_hold Samples.emptyTrip)
             (Samples.rule "AMS" RateType.PER_KM 5 50 [])).
    reflexivity.
  - apply (proj2 (empty_conditions_hold Samples.emptyTrip) (Samples.handling []) 100).
    reflexivity.
Defined.

End Conditions.

(** ** Base charge of a rule *)

Section BaseCharge.
Import RateItem RateType Errors.

Lemma rateTypeCharge_by_type rule tripData raw :
  baseChargeByType rule tripData raw -> rateTypeCharge rule tripData = Ok raw.
Proof.
  intros Hraw. unfold rateTypeCharge.
  destruct Hraw as [H|H|H|H|H|H]; rewrite H; now decide_cases.
Qed.

Lemma calculate_returns charge baseAmount tripData :
  Forall (evaluatesCleanly tripData) (AdditionalCharge.conditions charge) ->
  exists amount, AdditionalCharge.calculate charge baseAmount tripData = Ok amount.
Proof.
  intros Hclean. unfold AdditionalCharge.calculate.
  destruct (every_clean _ _ Hclean) as [b ->]. simpl.
  destruct b; simpl; [ destruct (AdditionalCharge.isPercentage charge) | ]; eauto.
Qed.

(** C1: for a rule whose conditions all hold on the trip, the base charge
    of the result is the charge the rate type asks for (the base rate for
    FIXED, SLAB_BASED and ZONE_BASED; the base rate times the distance, the
    weight or the volume of the trip for the three proportional types),
    raised to exactly the minimum charge when it is less than it; and the
    result is returned whenever the conditions of the additional charges
    evaluate without error. *)
Theorem calculateCharge_base_charge (rule : RateItem.t) (tripData : TripData)
    (raw : float) :
  Forall (holds tripData) (conditions rule) ->
  baseChargeByType rule tripData raw ->
  (forall cc,
      calculateCharge rule tripData = Ok cc ->
      ChargeCalculation.baseCharge cc
      = if raw <? minCharge rule then minCharge rule else raw)
  /\ (Forall (fun charge =>
                Forall (evaluatesCleanly tripData) (AdditionalCharge.conditions charge))
        (additionalCharges rule) ->
      exists cc, calculateCharge rule tripData = Ok cc).
Proof.
  intros Hholds Hraw. unfold calculateCharge.
  rewrite (every_all_true _ _ Hholds), (rateTypeCharge_by_type _ _ _ Hraw). simpl.
  split.
  - intros cc.
    destruct (collectCharges _ _ _ _) as [adds|e]; simpl; [ | discriminate ].
    now intros [= <-].
  - intros Hclean.
    destruct (collectCharges_returns (additionalCharges rule)
                (if raw <? minCharge rule then minCharge rule else raw) tripData [])
      as [adds ->]; simpl; [ | eauto ].
    eapply List.Forall_impl; [ | exact Hclean ].
    intros charge Hcharge. now apply calculate_returns.
Qed.

Lemma calculateCharge_base_charge_witness :
  exists cc,
    calculateCharge (Samples.rule "AMS" PER_KM 5 50 []) Samples.trip = Ok cc
    /\ ChargeCalculation.baseCharge cc = 50.
Proof.
  assert (Hholds : Forall (holds Samples.trip)
                     (conditions (Samples.rule "AMS" PER_KM 5 50 [])))
    by constructor.
  assert (Hraw : baseChargeByType (Samples.rule "AMS" PER_KM 5 50 []) Samples.trip 40)
    by exact (charge_per_distance (Samples.rule "AMS" PER_KM 5 50 []) Samples.trip eq_refl).
  destruct (calculateCharge_base_charge _ _ _ Hholds Hraw) as [Hbase Hreturns].
  destruct Hreturns as [cc Hcc]; [ repeat constructor | ].
  exists cc. split; [ exact Hcc | exact (Hbase cc Hcc) ].
Defined.

End BaseCharge.

(** ** Total of a charge composition *)

Section Total.
Import ChargeCalculation.

Lemma addEach_fold amounts total :
  addEach total amounts = fold_left (fun t amount => t + amount) amounts total.
Proof. revert total. induction amounts as [|a l IH]; simpl; auto. Qed.

Lemma subtractEach_fold amounts total :
  subtractEach total amounts = fold_left (fun t amount => t - amount) amounts total.
Proof. revert total. induction amounts as [|a l IH]; simpl; auto. Qed.

Lemma new_total base adds fuel discs surs :
  totalCharge (new base adds fuel discs surs)
  = composedTotal (new base adds fuel discs surs).
Proof.
  unfold composedTotal, new, calculateTotalCharge. simpl.
  now rewrite subtractEach_fold, !addEach_fold.
Qed.

(** C2: the total stored by the constructor is the base charge plus the
    additional charges plus the fuel adjustment plus the surcharges minus
    the discounts; every result of [calculateCharge] carries that total;
    and [breakdown] hands out the stored total, whatever the parts are. *)
Theorem total_charge_composed_and_cached :
  (forall base adds fuel discs surs,
      totalCharge (new base adds fuel discs surs)
      = composedTotal (new base adds fuel discs surs)
      /\ baseCharge (new base adds fuel discs surs) = base
      /\ additionalCharges (new base adds fuel discs surs) = adds
      /\ fuelAdjustment (new base adds fuel discs surs) = fuel
      /\ discounts (new base adds fuel discs surs) = discs
      /\ surcharges (new base adds fuel discs surs) = surs)
  /\ (forall rule tripData cc,
        RateItem.calculateCharge rule tripData = Ok cc ->
        totalCharge cc = composedTotal cc)
  /\ (forall cc, bd_totalCharge (breakdown cc) = totalCharge cc).
Proof.
  split; [ | split ].
  - intros. split; [ apply new_total | repeat split ].
  - intros rule tripData cc. unfold RateItem.calculateCharge.
    destruct (every _ _) as [[|]|e]; simpl; try discriminate.
    destruct (RateItem.rateTypeCharge _ _) as [raw|e]; simpl; try discriminate.
    destruct (RateItem.collectCharges _ _ _ _) as [adds|e]; simpl; try discriminate.
    intros [= <-]. apply new_total.
  - reflexivity.
Qed.

Lemma total_charge_composed_and_cached_witness :
  RateItem.calculateCharge (Samples.rule "AMS" RateType.PER_KM 5 50 []) Samples.trip
  = Ok (new 50 [("Handling", 5)] (-2.5) [] [])
  /\ totalCharge (new 50 [("Handling", 5)] (-2.5) [] []) = 50 + 5 + -2.5.
Proof.
  split; [ reflexivity | ].
  apply (proj1 (proj2 total_charge_composed_and_cached)
           (Samples.rule "AMS" RateType.PER_KM 5 50 []) Samples.trip
           (new 50 [("Handling", 5)] (-2.5) [] [])).
  reflexivity.
Defined.

End Total.

(** ** Rule selection *)

Section Selection.
Import RateCard Errors.

Lemma strictEqString_iff key field :
  strictEqString key field = true <-> field = VStr key.
Proof.
  destruct field; simpl; try (split; [ discriminate | congruence ]).
  rewrite String.eqb_eq. split; congruence.
Qed.

Lemma keyMatches_iff key field :
  String.eqb key "*" || strictEqString key field = true <-> keyMatches key field.
Proof.
  unfold keyMatches. now rewrite orb_true_iff, String.eqb_eq, strictEqString_iff.
Qed.

Lemma matchesCriteria_iff rule tripData :
  RateItem.matchesCriteria rule (get tripData "origin") (get tripData "destination")
    (get tripData "vehicleType") = true
  <-> keysMatch rule tripData.
Proof.
  unfold RateItem.matchesCriteria, keysMatch.
  rewrite !andb_true_iff, !keyMatches_iff. tauto.
Qed.

Lemma applicableItems_none this tripData :
  Forall (fun rule => ~ keysMatch rule tripData) (rateItems this) ->
  applicableItems this tripData = [].
Proof.
  unfold applicableItems. induction 1 as [|rule rest Hrule _ IH]; simpl; [ reflexivity | ].
  destruct (RateItem.matchesCriteria _ _ _ _) eqn:Hm; [ | exact IH ].
  apply matchesCriteria_iff in Hm. contradiction.
Qed.

(** C3: the applicable rules are exactly the rules of the catalog whose
    origin, destination and vehicle-type keys each are the wildcard marker
    or the very string of the trip's field; and when several rules match,
    the charge computed is that of the first one in the catalog's order,
    whatever the other matching rules are. *)
Theorem calculateRate_first_match (card : RateCard.t) (tripData : TripData) :
  (forall rule,
      In rule (applicableItems card tripData)
      <-> In rule (rateItems card) /\ keysMatch rule tripData)
  /\ (forall before rule after,
        rateItems card = (before ++ rule :: after)%list ->
        Forall (fun r => ~ keysMatch r tripData) before ->
        keysMatch rule tripData ->
        applicableItems card tripData
        = rule :: applicableItems {| id := id card; rateItems := after |} tripData
        /\ calculateRate card tripData = RateItem.calculateCharge rule tripData).
Proof.
  split.
  - intros rule. unfold applicableItems.
    now rewrite List.filter_In, matchesCriteria_iff.
  - intros before rule after Hitems Hbefore Hrule.
    assert (Happ : applicableItems card tripData
                   = rule :: applicableItems {| id := id card; rateItems := after |} tripData).
    { pose proof (applicableItems_none {| id := id card; rateItems := before |}
                    tripData Hbefore) as Hnone.
      unfold applicableItems in *. simpl in *.
      rewrite Hitems, List.filter_app, Hnone. simpl.
      apply matchesCriteria_iff in Hrule. now rewrite Hrule. }
    split; [ exact Happ | ].
    unfold calculateRate. now rewrite Happ.
Qed.

Lemma calculateRate_first_match_witness :
  calculateRate
    (Samples.catalog [Samples.rule "BER" RateType.FIXED 75 0 [];
                      Samples.rule "*" RateType.FIXED 100 0 [];
                      Samples.rule "AMS" RateType.PER_KM 5 50 []])
    Samples.trip
  = RateItem.calculateCharge (Samples.rule "*" RateType.FIXED 100 0 []) Samples.trip.
Proof.
  apply (proj2 (calculateRate_first_match
                  (Samples.catalog [Samples.rule "BER" RateType.FIXED 75 0 [];
                                    Samples.rule "*" RateType.FIXED 100 0 [];
                                    Samples.rule "AMS" RateType.PER_KM 5 50 []])
                  Samples.trip)
           [Samples.rule "BER" RateType.FIXED 75 0 []]
           (Samples.rule "*" RateType.FIXED 100 0 [])
           [Samples.rule "AMS" RateType.PER_KM 5 50 []]).
  - reflexivity.
  - constructor; [ | constructor ].
    intros [[H|H] _]; discriminate H.
  - repeat split; (left; reflexivity) || (right; reflexivity).
Defined.

(** C4: when no rule of the catalog matches the trip, as in an empty
    catalog, [calculateRate] throws the no-applicable-rate error, which
    carries the identifier of the trip; it returns no result. *)
Theorem calculateRate_no_applicable_rule (card : RateCard.t) (tripData : TripData) :
  Forall (fun rule => ~ keysMatch rule tripData) (rateItems card) ->
  calculateRate card tripData
  = Throw (NoApplicableRuleError (ToString (get tripData "id"))).
Proof.
  intros Hnone. unfold calculateRate.
  now rewrite (applicableItems_none _ _ Hnone).
Qed.

Lemma calculateRate_no_applicable_rule_witness :
  calculateRate (Samples.catalog []) Samples.trip = Throw (NoApplicableRuleError "T-17")
  /\ calculateRate (Samples.catalog [Samples.rule "BER" RateType.FIXED 75 0 []]) Samples.trip
     = Throw (NoApplicableRuleError "T-17").
Proof.
  split.
  - apply (calculateRate_no_applicable_rule (Samples.catalog []) Samples.trip).
    constructor.
  - apply (calculateRate_no_applicable_rule
             (Samples.catalog [Samples.rule "BER" RateType.FIXED 75 0 []]) Samples.trip).
    constructor; [ | constructor ].
    intros [[H|H] _]; discriminate H.
Defined.

End Selection.

(** ** Fuel adjustment *)

Section Fuel.
Import FuelAdjustment FloatFacts.

Lemma calculate_weakSign (this : FuelAdjustment.t) (baseRate : float) (s : bool) :
  enabled this = true ->
  (0 <? baseRate) = true ->
  (0 <? basePrice this) = true ->
  (0 <? adjustmentFactor this) = true ->
  weakSign s (Prim2SF (priceChange this)) ->
  weakSign s (Prim2SF (calculate this baseRate)).
Proof.
  intros Hon Hbase Hprice Hfactor Hdelta. unfold calculate. rewrite Hon. simpl.
  destruct (basePrice this =? 0); [ exact I | ].
  unfold percentageChange.
  apply div_weakSign; [ | reflexivity ].
  apply mul_weakSign; [ | exact Hfactor ].
  apply mul_weakSign_l; [ exact Hbase | ].
  apply mul_weakSign; [ | reflexivity ].
  apply div_weakSign; [ exact Hdelta | exact Hprice ].
Qed.

(** C6, as amended: a fuel adjustment that is disabled, or whose reference
    price is exactly zero, computes 0 whatever the current price and the
    factor are; otherwise it computes
    [baseCharge * ((currentPrice - referencePrice) / referencePrice * 100)
     * adjustmentFactor / 100];
    and when the base charge, the reference price and the factor are
    positive, its sign follows the price delta: it is never positive when
    the price decreased and never negative when the price increased. *)
Theorem fuel_adjustment_calculate (this : FuelAdjustment.t) (baseCharge : float) :
  (enabled this = false \/ (basePrice this =? 0) = true ->
   calculate this baseCharge = 0)
  /\ (enabled this = true -> (basePrice this =? 0) = false ->
      calculate this baseCharge
      = baseCharge * ((currentPrice this - basePrice this) / basePrice this * 100)
        * adjustmentFactor this / 100)
  /\ (enabled this = true ->
      (0 <? baseCharge) = true ->
      (0 <? basePrice this) = true ->
      (0 <? adjustmentFactor this) = true ->
      ((currentPrice this - basePrice this <? 0) = true ->
       (0 <? calculate this baseCharge) = false)
      /\ ((0 <? currentPrice this - basePrice this) = true ->
          (calculate this baseCharge <? 0) = false)).
Proof.
  split; [ | split ].
  - unfold calculate. intros [-> | ->]; [ reflexivity | ].
    now rewrite orb_true_r.
  - unfold calculate. now intros -> ->.
  - intros Hon Hbase Hprice Hfactor. split; intros Hdelta.
    + apply not_true_is_false. rewrite ltb_zero_l.
      apply weakSign_not_positive, calculate_weakSign; auto.
      apply negative_weakSign. now apply ltb_zero_r.
    + apply not_true_is_false. rewrite ltb_zero_r.
      apply weakSign_not_negative, calculate_weakSign; auto.
      apply positive_weakSign. now apply ltb_zero_l.
Qed.

Lemma fuel_adjustment_calculate_witness :
  calculate {| enabled := true; basePrice := 0; currentPrice := 110;
               adjustmentFactor := 0.5 |} 200 = 0
  /\ calculate {| enabled := true; basePrice := 100; currentPrice := 110;
                  adjustmentFactor := 0.5 |} 200 = 10
  /\ (0 <? calculate (Samples.fuel 0.5) 200) = false.
Proof.
  split; [ | split ].
  - apply (proj1 (fuel_adjustment_calculate
                    {| enabled := true; basePrice := 0; currentPrice := 110;
                       adjustmentFactor := 0.5 |} 200)).
    right; reflexivity.
  - apply (proj1 (proj2 (fuel_adjustment_calculate
                    {| enabled := true; basePrice := 100; currentPrice := 110;
                       adjustmentFactor := 0.5 |} 200))); reflexivity.
  - apply (proj2 (proj2 (fuel_adjustment_calculate (Samples.fuel 0.5) 200)));
      reflexivity.
Defined.

(** C6, as stated, fails: the price decreased, and with a negative
    adjustment factor the adjustment is positive; with the factor 0, the
    default of the constructor, it is a zero; and with a positive factor
    and a positive base charge too small for the result to be a binary64
    number it is a zero again.  A zero is not negative. *)
Lemma fuel_adjustment_sign_not_price_delta :
  (priceChange (Samples.fuel (-0.5)) <? 0) = true
  /\ calculate (Samples.fuel (-0.5)) 200 = 10
  /\ (calculate (Samples.fuel (-0.5)) 200 <? 0) = false
  /\ (priceChange (Samples.fuel 0) <? 0) = true
  /\ (calculate (Samples.fuel 0) 200 <? 0) = false
  /\ (priceChange (Samples.fuel 0.5) <? 0) = true
  /\ (0 <? 0x1p-1074) = true
  /\ (calculate (Samples.fuel 0.5) 0x1p-1074 <? 0) = false.
Proof. repeat split. Qed.

End Fuel.

(** ** The engine on the examples of the specification *)

Section Examples.
Import Samples.

Example between_inside :
  RateCondition.evaluate (condition "distance" "BETWEEN" "10,20")
    (literal {[ "distance" := VNum 15 ]}) = Ok true.
Proof. reflexivity. Qed.

Example between_outside :
  RateCondition.evaluate (condition "distance" "BETWEEN" "10,20")
    (literal {[ "distance" := VNum 21 ]}) = Ok false.
Proof. reflexivity. Qed.

Example in_list_of_raw_strings :
  RateCondition.evaluate (condition "vehicleType" "IN" "VAN, TRUCK") trip = Ok true
  /\ RateCondition.evaluate (condition "distance" "IN" "7, 8") trip = Ok true
  /\ RateCondition.evaluate (condition "distance" "EQUALS" "8.0") trip = Ok true
  /\ RateCondition.evaluate (condition "origin" "CONTAINS" "MS") trip = Ok true.
Proof. repeat split. Qed.

Example null_has_no_toString :
  RateCondition.evaluate (condition "vehicleType" "NOT_IN" "VAN")
    (literal {[ "vehicleType" := VNull ]}) = Throw TypeError.
Proof. reflexivity. Qed.

Example wildcard_rule_matches_any_trip (origin destination vehicleType : JS.value) :
  RateItem.matchesCriteria
    {| RateItem.id := "any"; RateItem.origin := "*"; RateItem.destination := "*";
       RateItem.vehicleType := "*"; RateItem.rateType := RateType.FIXED;
       RateItem.baseRate := 100; RateItem.minCharge := 0;
       RateItem.additionalCharges := []; RateItem.conditions := [];
       RateItem.fuelAdjustment := fuel 0 |}
    origin destination vehicleType = true.
Proof. reflexivity. Qed.

Example fuel_adjustment_of_the_specification :
  FuelAdjustment.calculate
    {| FuelAdjustment.enabled := true; FuelAdjustment.basePrice := 100;
       FuelAdjustment.currentPrice := 110; FuelAdjustment.adjustmentFactor := 0.5 |}
    200 = 10.
Proof. reflexivity. Qed.

Example charge_of_a_trip :
  RateCard.calculateRate
    (catalog [rule "BER" RateType.FIXED 75 0 []; rule "AMS" RateType.PER_KM 5 50 []]) trip
  = Ok {| ChargeCalculation.baseCharge := 50;
          ChargeCalculation.additionalCharges := [("Handling", 5)];
          ChargeCalculation.fuelAdjustment := -2.5;
          ChargeCalculation.discounts := [];
          ChargeCalculation.surcharges := [];
          ChargeCalculation.totalCharge := 52.5 |}.
Proof. reflexivity. Qed.

Example unsupported_rate_type :
  RateItem.calculateCharge (rule "AMS" "PER_PALLET" 5 50 []) trip
  = Throw (Errors.UnsupportedRateTypeError "PER_PALLET").
Proof. reflexivity. Qed.

Example set_overwrites_in_place :
  JS.set (JS.set (JS.set [] "Toll" 4) "Permit" 2) "Toll" 6 = [("Toll", 6); ("Permit", 2)].
Proof. reflexivity. Qed.

(** The conversions of the host language on some known values. *)

Example parseFloat_known_values :
  parseFloat "12.5kg" = 12.5
  /\ parseFloat "  -3e2" = -300
  /\ parseFloat ".5" = 0.5
  /\ parseFloat "1e" = 1
  /\ parseFloat "0.1" = 1 / 10
  /\ parseFloat "-Infinity" = neg_infinity
  /\ parseFloat "" = PrimFloat.nan
  /\ parseFloat "ten" = PrimFloat.nan.
Proof. repeat split. Qed.

Example StringToNumber_known_values :
  StringToNumber "" = 0
  /\ StringToNumber " 42 " = 42
  /\ StringToNumber "0x1F" = 31
  /\ StringToNumber "8.0" = 8
  /\ StringToNumber "12.5kg" = PrimFloat.nan.
Proof. repeat split. Qed.

Example NumberToString_known_values :
  NumberToString 8 = "8"
  /\ NumberToString (-2.5) = "-2.5"
  /\ NumberToString (1 / 10) = "0.1"
  /\ NumberToString (1 / 10 + 2 / 10) = "0.30000000000000004"
  /\ NumberToString (1 / 3) = "0.3333333333333333"
  /\ NumberToString 1e21 = "1e+21"
  /\ NumberToString (1 / 10000000) = "1e-7"
  /\ NumberToString 0x1p-1074 = "5e-324"
  /\ NumberToString (-0) = "0"
  /\ NumberToString PrimFloat.nan = "NaN".
Proof. repeat split. Qed.

End Examples.

(** ** Further properties of condition evaluation *)

Section MoreConditionFacts.
Import RateCondition ConditionOperator Errors Samples.

(** Split the [switch] of [evaluate] in the hypothesis [H]. *)
Ltac operator_cases H :=
  repeat match type of H with
         | context [String.eqb (operator ?c) ?X] =>
             let E := fresh "E" in
             destruct (String.eqb (operator c) X) eqn:E;
             [ apply String.eqb_eq in E | apply String.eqb_neq in E ]
         end.

Lemma evaluate_throws_inv c tripData e :
  evaluate c tripData = Throw e ->
  get tripData (parameter c) <> VUndefined
  /\ ((~ In (operator c) supportedOperators /\ e = UnsupportedOperatorError (operator c))
      \/ (e = TypeError /\ typeErrorCause c tripData)).
Proof.
  intros H. unfold evaluate in H.
  destruct (get tripData (parameter c)) eqn:Hv; simpl in H; try discriminate H;
    (split; [ discriminate | ]);
    operator_cases H; try discriminate H;
    try (destruct (value c) eqn:Hval; simpl in H; try discriminate H);
    injection H as <-;
    first [ left; split; [ simpl; intuition congruence | reflexivity ]
          | right; split; [ reflexivity | ]; unfold typeErrorCause; rewrite ?Hval;
            match goal with E : operator c = _ |- _ => rewrite E end;
            simpl; tauto ].
Qed.

Lemma evaluate_unsupported c tripData :
  get tripData (parameter c) <> VUndefined ->
  ~ In (operator c) supportedOperators ->
  evaluate c tripData = Throw (UnsupportedOperatorError (operator c)).
Proof.
  intros Hpresent Hunsupported. unfold evaluate.
  rewrite (isUndefined_false _ Hpresent).
  repeat (rewrite eqb_ne;
          [ | intros Heq; apply Hunsupported; rewrite Heq; simpl; tauto ]).
  reflexivity.
Qed.

(** X1: [evaluate] throws only when the parameter reads as something other
    than [undefined], and then in these cases only: the operator is
    outside the enumeration (the unsupported-operator error); the operator
    is BETWEEN, IN or NOT_IN and the operand is not a text, or the
    operator is IN, NOT_IN or CONTAINS and the value of the parameter is
    [null] (a [TypeError]). *)
Theorem evaluate_throws_iff (c : RateCondition.t) (tripData : TripData) (e : exn) :
  evaluate c tripData = Throw e
  <-> get tripData (parameter c) <> VUndefined
      /\ ((~ In (operator c) supportedOperators
           /\ e = UnsupportedOperatorError (operator c))
          \/ (e = TypeError /\ typeErrorCause c tripData)).
Proof.
  split; [ apply evaluate_throws_inv | ].
  intros [Hpresent [[Hunsupported ->] | [-> [[Hin Htext] | [Hin Hnull]]]]].
  - now apply evaluate_unsupported.
  - unfold evaluate. rewrite (isUndefined_false _ Hpresent).
    destruct Hin as [<-|[<-|[<-|[]]]]; decide_cases;
      destruct (value c); simpl in *; try discriminate Htext; reflexivity.
  - unfold evaluate. rewrite Hnull. simpl.
    destruct Hin as [<-|[<-|[<-|[]]]]; decide_cases;
      destruct (value c); reflexivity.
Qed.

Lemma evaluate_throws_iff_witness :
  evaluate (condition "vehicleType" "NOT_IN" "VAN") (literal {[ "vehicleType" := VNull ]})
  = Throw TypeError
  /\ evaluate {| parameter := "distance"; operator := "IN"; value := VNum 8 |} Samples.trip
     = Throw TypeError.
Proof.
  split.
  - apply (proj2 (evaluate_throws_iff (condition "vehicleType" "NOT_IN" "VAN")
                    (literal {[ "vehicleType" := VNull ]}) TypeError)).
    split; [ vm_compute; discriminate | ].
    right. split; [ reflexivity | ]. right. split; [ simpl; tauto | reflexivity ].
  - apply (proj2 (evaluate_throws_iff
                    {| parameter := "distance"; operator := "IN"; value := VNum 8 |}
                    Samples.trip TypeError)).
    split; [ vm_compute; discriminate | ].
    right. split; [ reflexivity | ]. left. split; [ simpl; tauto | reflexivity ].
Defined.

(** X2: when the parameter, read on the trip (inherited members
    included), is not [undefined], NOT_EQUALS gives the opposite answer of
    EQUALS and NOT_IN the opposite answer of IN (or the same error),
    whatever the operand is; when it reads as [undefined] every operator
    gives false, so NOT_EQUALS and NOT_IN are not the negations of EQUALS
    and IN there. *)
Theorem evaluate_opposite_operators (parameter : string) (value : JS.value)
    (tripData : TripData) :
  (get tripData parameter <> VUndefined ->
   evaluate {| parameter := parameter; operator := NOT_EQUALS; value := value |} tripData
   = negated (evaluate {| parameter := parameter; operator := EQUALS; value := value |}
                tripData)
   /\ evaluate {| parameter := parameter; operator := NOT_IN; value := value |} tripData
      = negated (evaluate {| parameter := parameter; operator := IN; value := value |}
                   tripData))
  /\ (get tripData parameter = VUndefined ->
      forall operator,
        evaluate {| parameter := parameter; operator := operator; value := value |} tripData
        = Ok false).
Proof.
  split.
  - intros Hpresent. unfold evaluate. simpl.
    rewrite (isUndefined_false _ Hpresent). decide_cases.
    split; [ reflexivity | ].
    destruct (splitOn "," value); simpl; [ | reflexivity ].
    now destruct (toString (get tripData parameter)).
  - intros Habsent operator. unfold evaluate. simpl. now rewrite Habsent.
Qed.

Lemma evaluate_opposite_operators_witness :
  evaluate (condition "vehicleType" NOT_IN "VAN, BIKE") Samples.trip
  = negated (evaluate (condition "vehicleType" IN "VAN, BIKE") Samples.trip)
  /\ evaluate (condition "cargoClass" NOT_EQUALS "FRAGILE") Samples.trip = Ok false.
Proof.
  split.
  - apply (proj1 (evaluate_opposite_operators "vehicleType" (VStr "VAN, BIKE")
                    Samples.trip)).
    vm_compute; discriminate.
  - apply (proj2 (evaluate_opposite_operators "cargoClass" (VStr "FRAGILE") Samples.trip)).
    reflexivity.
Defined.

Lemma append_empty_r (s : string) : s +:+ "" = s.
Proof.
  induction s as [|a s IH]; [ reflexivity | ].
  change (String a (s +:+ "") = String a s). now rewrite IH.
Qed.

Lemma split_commaFree s : commaFree s = true -> split "," s = [s].
Proof.
  induction s as [|a s IH]; simpl; [ reflexivity | ].
  destruct (Ascii.eqb a ","); simpl; [ discriminate | ].
  intros H. now rewrite (IH H).
Qed.

Lemma split_first s rest :
  commaFree s = true -> split "," (s +:+ String "," rest) = s :: split "," rest.
Proof.
  induction s as [|a s IH]; [ reflexivity | ].
  change (String a s +:+ String "," rest) with (String a (s +:+ String "," rest)).
  simpl. destruct (Ascii.eqb a ","); simpl; [ discriminate | ].
  intros H. now rewrite (IH H).
Qed.

(** X3: BETWEEN with the operand [lo,hi] is the conjunction of
    GREATER_THAN_EQUAL [lo] and LESS_THAN_EQUAL [hi], the bounds trimmed;
    anything after a second comma is ignored. *)
Theorem evaluate_between_conjunction (parameter lo hi rest : string) (tripData : TripData) :
  commaFree lo = true ->
  commaFree hi = true ->
  rest = "" \/ (exists r, rest = String "," r) ->
  exists b1 b2,
    evaluate (condition parameter GREATER_THAN_EQUAL (trim lo)) tripData = Ok b1
    /\ evaluate (condition parameter LESS_THAN_EQUAL (trim hi)) tripData = Ok b2
    /\ evaluate (condition parameter BETWEEN (lo +:+ "," +:+ hi +:+ rest)) tripData
       = Ok (b1 && b2).
Proof.
  intros Hlo Hhi Hrest.
  assert (Hsplit : exists others,
             split "," (lo +:+ "," +:+ hi +:+ rest) = lo :: hi :: others).
  { change (lo +:+ "," +:+ hi +:+ rest) with (lo +:+ String "," (hi +:+ rest)).
    rewrite (split_first _ _ Hlo).
    destruct Hrest as [-> | [r ->]].
    - rewrite append_empty_r, (split_commaFree _ Hhi). now exists [].
    - rewrite (split_first _ _ Hhi). eauto. }
  destruct Hsplit as [others Hsplit].
  unfold evaluate. simpl. rewrite Hsplit. simpl.
  destruct (isUndefined (get tripData parameter)).
  - exists false, false. auto.
  - decide_cases. eauto.
Qed.

Lemma evaluate_between_conjunction_witness :
  exists b1 b2,
    evaluate (condition "distance" GREATER_THAN_EQUAL (trim " 5 ")) Samples.trip = Ok b1
    /\ evaluate (condition "distance" LESS_THAN_EQUAL (trim " 10")) Samples.trip = Ok b2
    /\ evaluate (condition "distance" BETWEEN (" 5 " +:+ "," +:+ " 10" +:+ ",20")) Samples.trip
       = Ok (b1 && b2).
Proof.
  apply (evaluate_between_conjunction "distance" " 5 " " 10" ",20" Samples.trip).
  - reflexivity.
  - reflexivity.
  - right. now exists "20".
Defined.

End MoreConditionFacts.

(** ** Further facts about binary64 arithmetic *)

Module MoreFloatFacts.
Import FloatFacts.

Lemma SFcompare_antisym x y :
  SFcompare y x = match SFcompare x y with
                  | Some c => Some (CompOpp c)
                  | None => None
                  end.
Proof.
  destruct x as [sx|sx| |sx mx ex], y as [sy|sy| |sy my ey]; simpl;
    try destruct sx; try destruct sy; simpl; try reflexivity;
    rewrite (Z.compare_antisym ex ey); destruct (ex ?= ey)%Z; simpl; try reflexivity;
    pose proof (Pos.compare_cont_antisym mx my Eq) as H; simpl in H; rewrite <- H;
    now destruct (Pos.compare_cont Eq mx my).
Qed.

Lemma ltb_irrefl x : (x <? x) = false.
Proof.
  rewrite ltb_spec. unfold SFltb.
  pose proof (SFcompare_antisym (Prim2SF x) (Prim2SF x)) as H.
  destruct (SFcompare (Prim2SF x) (Prim2SF x)) as [[| |]|]; try reflexivity; discriminate H.
Qed.

Lemma leb_not_ltb x y : (x <=? y) = true -> (y <? x) = false.
Proof.
  rewrite leb_spec, ltb_spec. unfold SFleb, SFltb.
  rewrite (SFcompare_antisym (Prim2SF x) (Prim2SF y)).
  now destruct (SFcompare (Prim2SF x) (Prim2SF y)) as [[| |]|].
Qed.

Lemma mul_nan_r x : x * PrimFloat.nan = PrimFloat.nan.
Proof.
  apply Prim2SF_inj. rewrite mul_spec, Prim2SF_nan.
  now destruct (Prim2SF x).
Qed.

Lemma add_nan_l x : PrimFloat.nan + x = PrimFloat.nan.
Proof. apply Prim2SF_inj. now rewrite add_spec, Prim2SF_nan. Qed.

Lemma addEach_nan amounts : ChargeCalculation.addEach PrimFloat.nan amounts = PrimFloat.nan.
Proof. induction amounts as [|a l IH]; simpl; [ reflexivity | now rewrite add_nan_l ]. Qed.

End MoreFloatFacts.

(** ** Further properties of [calculateCharge] and [calculateRate] *)

Section MoreChargeFacts.
Import RateItem Errors MoreFloatFacts.

Lemma every_false_inv {A : Type} (f : A -> result bool) l :
  every f l = Ok false -> exists a, In a l /\ f a = Ok false.
Proof.
  induction l as [|a l IH]; simpl; [ discriminate | ].
  destruct (f a) as [[|]|e] eqn:Ha; try discriminate.
  - intros H. destruct (IH H) as (a' & Hin & Ha'). eauto.
  - eauto.
Qed.

Lemma calculate_throws_from charge baseAmount tripData e :
  AdditionalCharge.calculate charge baseAmount tripData = Throw e ->
  exists c, In c (AdditionalCharge.conditions charge)
            /\ RateCondition.evaluate c tripData = Throw e.
Proof.
  unfold AdditionalCharge.calculate.
  destruct (every _ _) as [b|e'] eqn:Hevery; simpl.
  - destruct b; simpl; [ destruct (AdditionalCharge.isPercentage _) | ]; discriminate.
  - intros [= <-]. now apply every_throws in Hevery.
Qed.

Lemma collectCharges_throws_from charges baseCharge tripData acc e :
  collectCharges charges baseCharge tripData acc = Throw e ->
  exists c, In c (flat_map AdditionalCharge.conditions charges)
            /\ RateCondition.evaluate c tripData = Throw e.
Proof.
  revert acc. induction charges as [|charge rest IH]; simpl; intros acc; [ discriminate | ].
  destruct (AdditionalCharge.calculate charge baseCharge tripData) as [amount|e'] eqn:Hc; simpl.
  - intros H. destruct (IH _ H) as (c & Hin & Hc'). exists c. split; [ | exact Hc' ].
    apply in_or_app. now right.
  - intros [= <-]. destruct (calculate_throws_from _ _ _ _ Hc) as (c & Hin & Hc').
    exists c. split; [ | exact Hc' ]. apply in_or_app. now left.
Qed.

Lemma rateTypeCharge_unsupported rule tripData :
  ~ In (rateType rule) rateTypes ->
  rateTypeCharge rule tripData = Throw (UnsupportedRateTypeError (rateType rule)).
Proof.
  intros Hunsupported. unfold rateTypeCharge.
  repeat (rewrite eqb_ne;
          [ | intros Heq; apply Hunsupported; rewrite Heq; simpl; tauto ]).
  reflexivity.
Qed.

Lemma rateTypeCharge_throws rule tripData e :
  rateTypeCharge rule tripData = Throw e ->
  ~ In (rateType rule) rateTypes /\ e = UnsupportedRateTypeError (rateType rule).
Proof.
  unfold rateTypeCharge. intros H.
  repeat match type of H with
         | context [String.eqb (rateType rule) ?X] =>
             let E := fresh "E" in
             destruct (String.eqb (rateType rule) X) eqn:E;
             [ discriminate H | apply String.eqb_neq in E ]
         end.
  injection H as <-. split; [ | reflexivity ].
  unfold rateTypes. simpl. intuition congruence.
Qed.

Lemma calculateCharge_throws_cases rule tripData e :
  calculateCharge rule tripData = Throw e ->
  (e = ConditionsNotMetError
   /\ exists c, In c (conditions rule) /\ RateCondition.evaluate c tripData = Ok false)
  \/ (e = UnsupportedRateTypeError (rateType rule)
      /\ ~ In (rateType rule) rateTypes
      /\ Forall (holds tripData) (conditions rule))
  \/ (exists c, In c (conditionsOf rule) /\ RateCondition.evaluate c tripData = Throw e).
Proof.
  unfold calculateCharge, conditionsOf.
  destruct (every _ (conditions rule)) as [[|]|e'] eqn:Hevery; simpl.
  - destruct (rateTypeCharge rule tripData) as [raw|e'] eqn:Hraw; simpl.
    + destruct (collectCharges _ _ _ _) as [adds|e'] eqn:Hadds; simpl; [ discriminate | ].
      intros [= <-]. right; right.
      destruct (collectCharges_throws_from _ _ _ _ _ Hadds) as (c & Hin & Hc).
      exists c. split; [ apply in_or_app; now right | exact Hc ].
    + intros [= <-]. right; left.
      destruct (rateTypeCharge_throws _ _ _ Hraw) as [Hunsupported ->].
      split; [ reflexivity | ]. split; [ exact Hunsupported | ].
      now apply every_true_inv in Hevery.
  - intros [= <-]. left. split; [ reflexivity | ]. now apply every_false_inv in Hevery.
  - intros [= <-]. right; right.
    destruct (every_throws _ _ _ Hevery) as (c & Hin & Hc).
    exists c. split; [ apply in_or_app; now left | exact Hc ].
Qed.

(** X4: [calculateCharge] throws nothing but these: the conditions-not-met
    error, and then a condition of the rule evaluated to false; the
    unsupported-rate-type error, and then the rate type is outside the
    enumeration and the conditions of the rule all hold; the
    unsupported-operator error of a condition of the rule or of one of its
    additional charges, whose parameter does not read as [undefined]; or a
    [TypeError], and then such a condition calls [split] on an operand
    that is not a text or [toString] on a parameter whose value is
    [null]. *)
Theorem calculateCharge_throws_only (rule : RateItem.t) (tripData : TripData) (e : exn) :
  calculateCharge rule tripData = Throw e ->
  (e = ConditionsNotMetError
   /\ exists c, In c (conditions rule) /\ RateCondition.evaluate c tripData = Ok false)
  \/ (e = UnsupportedRateTypeError (rateType rule)
      /\ ~ In (rateType rule) rateTypes
      /\ Forall (holds tripData) (conditions rule))
  \/ (exists c,
         In c (conditionsOf rule)
         /\ get tripData (RateCondition.parameter c) <> VUndefined
         /\ ~ In (RateCondition.operator c) supportedOperators
         /\ e = UnsupportedOperatorError (RateCondition.operator c))
  \/ (exists c,
         In c (conditionsOf rule)
         /\ get tripData (RateCondition.parameter c) <> VUndefined
         /\ typeErrorCause c tripData
         /\ e = TypeError).
Proof.
  intros H. apply calculateCharge_throws_cases in H as [H | [H | (c & Hin & Hc)]].
  - now left.
  - right. now left.
  - right. right.
    apply evaluate_throws_inv in Hc as [Hpresent [[Hop ->] | [-> Hcause]]].
    + left. exists c. auto.
    + right. exists c. auto.
Qed.

Lemma calculateCharge_throws_only_witness :
  (TypeError = ConditionsNotMetError
   /\ exists c,
        In c (conditions (MoreSamples.ruleWith RateType.FIXED [Samples.handling
                [{| RateCondition.parameter := "distance"; RateCondition.operator := "IN";
                    RateCondition.value := VNum 8 |}]]))
        /\ RateCondition.evaluate c Samples.trip = Ok false)
  \/ (TypeError = UnsupportedRateTypeError RateType.FIXED
      /\ ~ In RateType.FIXED rateTypes
      /\ Forall (holds Samples.trip)
           (conditions (MoreSamples.ruleWith RateType.FIXED [Samples.handling
                [{| RateCondition.parameter := "distance"; RateCondition.operator := "IN";
                    RateCondition.value := VNum 8 |}]])))
  \/ (exists c,
         In c (conditionsOf (MoreSamples.ruleWith RateType.FIXED [Samples.handling
                [{| RateCondition.parameter := "distance"; RateCondition.operator := "IN";
                    RateCondition.value := VNum 8 |}]]))
         /\ get Samples.trip (RateCondition.parameter c) <> VUndefined
         /\ ~ In (RateCondition.operator c) supportedOperators
         /\ TypeError = UnsupportedOperatorError (RateCondition.operator c))
  \/ (exists c,
         In c (conditionsOf (MoreSamples.ruleWith RateType.FIXED [Samples.handling
                [{| RateCondition.parameter := "distance"; RateCondition.operator := "IN";
                    RateCondition.value := VNum 8 |}]]))
         /\ get Samples.trip (RateCondition.parameter c) <> VUndefined
         /\ typeErrorCause c Samples.trip
         /\ TypeError = TypeError).
Proof.
  apply (calculateCharge_throws_only
           (MoreSamples.ruleWith RateType.FIXED [Samples.handling
                [{| RateCondition.parameter := "distance"; RateCondition.operator := "IN";
                    RateCondition.value := VNum 8 |}]])
           Samples.trip TypeError).
  reflexivity.
Defined.

(** X5: [calculateCharge] throws the unsupported-rate-type error exactly
    when the conditions of the rule all hold and its rate type is outside
    the enumeration, whatever its additional charges are; the error
    carries the rate type of the rule. *)
Theorem calculateCharge_unsupported_rate_type_iff (rule : RateItem.t)
    (tripData : TripData) (rateType' : string) :
  calculateCharge rule tripData = Throw (UnsupportedRateTypeError rateType')
  <-> Forall (holds tripData) (conditions rule)
      /\ ~ In (rateType rule) rateTypes
      /\ rateType' = rateType rule.
Proof.
  split.
  - intros H. apply calculateCharge_throws_cases in H
      as [[H _] | [[H [Hunsupported Hholds]] | (c & _ & Hc)]].
    + discriminate H.
    + assert (Hsame : rateType' = rateType rule) by (injection H as H'; exact H').
      auto.
    + apply evaluate_throws in Hc as [Hc|Hc]; discriminate Hc.
  - intros (Hholds & Hunsupported & ->). unfold calculateCharge.
    rewrite (every_all_true _ _ Hholds). simpl.
    now rewrite (rateTypeCharge_unsupported _ _ Hunsupported).
Qed.

Lemma calculateCharge_unsupported_rate_type_iff_witness :
  calculateCharge
    (MoreSamples.ruleWith "PER_PALLET"
       [Samples.handling [Samples.condition "distance" "MATCHES" "8"]])
    Samples.trip
  = Throw (UnsupportedRateTypeError "PER_PALLET").
Proof.
  apply (proj2 (calculateCharge_unsupported_rate_type_iff
                  (MoreSamples.ruleWith "PER_PALLET"
                     [Samples.handling [Samples.condition "distance" "MATCHES" "8"]])
                  Samples.trip "PER_PALLET")).
  split; [ constructor | ]. split; [ | reflexivity ].
  simpl. intros H. repeat destruct H as [H|H]; try discriminate H; exact H.
Defined.

(** X6: the base charge of a result of [calculateCharge] is never less than
    the minimum charge of the rule. *)
Theorem calculateCharge_not_below_minimum (rule : RateItem.t) (tripData : TripData)
    (cc : ChargeCalculation.t) :
  calculateCharge rule tripData = Ok cc ->
  (ChargeCalculation.baseCharge cc <? minCharge rule) = false.
Proof.
  unfold calculateCharge.
  destruct (every _ _) as [[|]|e]; simpl; try discriminate.
  destruct (rateTypeCharge rule tripData) as [raw|e]; simpl; try discriminate.
  destruct (collectCharges _ _ _ _) as [adds|e]; simpl; try discriminate.
  intros [= <-]. simpl.
  destruct (raw <? minCharge rule) eqn:Hraw; [ apply ltb_irrefl | exact Hraw ].
Qed.

Lemma calculateCharge_not_below_minimum_witness :
  (ChargeCalculation.baseCharge (ChargeCalculation.new 50 [("Handling", 5)] (-2.5) [] [])
   <? minCharge (Samples.rule "AMS" RateType.PER_KM 5 50 [])) = false.
Proof.
  apply (calculateCharge_not_below_minimum
           (Samples.rule "AMS" RateType.PER_KM 5 50 []) Samples.trip).
  reflexivity.
Defined.

(** X7: when the rate type multiplies the base rate by a field that reads
    as [undefined] on the trip, the conditions of the rule hold and those
    of its additional charges evaluate without error, [calculateCharge]
    raises no error: it returns a result whose base charge is NaN, the
    minimum charge not being applied to it, and whose total is NaN. *)
Theorem calculateCharge_missing_measure (rule : RateItem.t) (tripData : TripData)
    (field : string) :
  measuredField (rateType rule) = Some field ->
  get tripData field = VUndefined ->
  Forall (holds tripData) (conditions rule) ->
  Forall (fun charge =>
            Forall (evaluatesCleanly tripData) (AdditionalCharge.conditions charge))
    (additionalCharges rule) ->
  exists cc,
    calculateCharge rule tripData = Ok cc
    /\ ChargeCalculation.baseCharge cc = PrimFloat.nan
    /\ ChargeCalculation.totalCharge cc = PrimFloat.nan.
Proof.
  intros Hfield Habsent Hholds Hclean. unfold calculateCharge.
  rewrite (every_all_true _ _ Hholds). simpl.
  assert (Hraw : rateTypeCharge rule tripData = Ok PrimFloat.nan).
  { revert Hfield. unfold measuredField, rateTypeCharge.
    destruct (String.eqb (rateType rule) RateType.PER_KM) eqn:Ekm;
      [ apply String.eqb_eq in Ekm; rewrite Ekm; decide_cases
      | destruct (String.eqb (rateType rule) RateType.PER_KG) eqn:Ekg;
        [ apply String.eqb_eq in Ekg; rewrite Ekg; decide_cases
        | destruct (String.eqb (rateType rule) RateType.PER_CBM) eqn:Ecbm;
          [ apply String.eqb_eq in Ecbm; rewrite Ecbm; decide_cases
          | discriminate ] ] ];
      intros [= <-]; rewrite Habsent; simpl; now rewrite mul_nan_r. }
  rewrite Hraw. simpl. rewrite FloatFacts.ltb_nan_l.
  destruct (collectCharges_returns (additionalCharges rule) PrimFloat.nan tripData [])
    as [adds ->].
  { eapply List.Forall_impl; [ | exact Hclean ].
    intros charge Hcharge. now apply calculate_returns. }
  simpl. eexists. split; [ reflexivity | ]. split; [ reflexivity | ].
  unfold ChargeCalculation.new, ChargeCalculation.calculateTotalCharge. simpl.
  now rewrite addEach_nan, add_nan_l.
Qed.

Lemma calculateCharge_missing_measure_witness :
  exists cc,
    calculateCharge (MoreSamples.ruleWith RateType.PER_KG []) Samples.trip = Ok cc
    /\ ChargeCalculation.baseCharge cc = PrimFloat.nan
    /\ ChargeCalculation.totalCharge cc = PrimFloat.nan.
Proof.
  apply (calculateCharge_missing_measure
           (MoreSamples.ruleWith RateType.PER_KG []) Samples.trip "weight").
  - reflexivity.
  - reflexivity.
  - constructor.
  - constructor.
Defined.

End MoreChargeFacts.

(** ** The mapping of additional charges and the breakdown *)

Section Breakdown.
Import RateItem ChargeCalculation.

Lemma amountOf_set_same m name amount :
  amountOf (JS.set m name amount) name = Some amount.
Proof.
  induction m as [|[k v] m IH]; simpl.
  - now rewrite String.eqb_refl.
  - destruct (String.eqb k name) eqn:Hk; simpl; rewrite ?String.eqb_refl, ?Hk; auto.
Qed.

Lemma amountOf_set_other m name amount other :
  name <> other -> amountOf (JS.set m name amount) other = amountOf m other.
Proof.
  intros Hne. induction m as [|[k v] m IH]; simpl.
  - now rewrite (eqb_ne _ _ Hne).
  - destruct (String.eqb k name) eqn:Hk; simpl.
    + apply String.eqb_eq in Hk. subst k. now rewrite (eqb_ne _ _ Hne).
    + now rewrite IH.
Qed.

Lemma keys_set m name amount :
  map fst (JS.set m name amount)
  = if named name (map fst m) then map fst m else (map fst m ++ [name])%list.
Proof.
  unfold named. induction m as [|[k v] m IH]; simpl; [ reflexivity | ].
  destruct (String.eqb k name) eqn:Hk; simpl.
  - apply String.eqb_eq in Hk. now subst k.
  - rewrite IH. now destruct (existsb _ (map fst m)).
Qed.

Lemma filter_all {A : Type} (l : list A) : List.filter (fun _ => true) l = l.
Proof. induction l as [|a l IH]; simpl; congruence. Qed.

Lemma filter_both {A : Type} (p q : A -> bool) (l : list A) :
  List.filter p (List.filter q l) = List.filter (fun a => p a && q a) l.
Proof.
  induction l as [|a l IH]; simpl; [ reflexivity | ].
  destruct (q a); simpl; rewrite ?andb_true_r, ?andb_false_r;
    [ destruct (p a) | ]; simpl; congruence.
Qed.

Lemma collectCharges_keys charges baseCharge tripData acc m :
  collectCharges charges baseCharge tripData acc = Ok m ->
  map fst m
  = (map fst acc
     ++ List.filter (fun name => negb (named name (map fst acc)))
          (firstOccurrences (map AdditionalCharge.name charges)))%list.
Proof.
  revert acc. induction charges as [|charge rest IH]; simpl; intros acc.
  - intros [= <-]. now rewrite app_nil_r.
  - destruct (AdditionalCharge.calculate charge baseCharge tripData) as [amount|e];
      simpl; [ | discriminate ].
    intros H. rewrite (IH _ H), keys_set, filter_both.
    destruct (named (AdditionalCharge.name charge) (map fst acc)) eqn:Hnamed; simpl.
    + f_equal. apply List.filter_ext. intros name.
      destruct (String.eqb name (AdditionalCharge.name charge)) eqn:Hname; simpl;
        [ | now rewrite andb_true_r ].
      apply String.eqb_eq in Hname. subst name. now rewrite Hnamed.
    + rewrite <- app_assoc. simpl. do 2 f_equal. apply List.filter_ext. intros name.
      unfold named. rewrite existsb_app. simpl. rewrite orb_false_r, negb_orb.
      now rewrite (String.eqb_sym (AdditionalCharge.name charge) name).
Qed.

Lemma collectCharges_app before after baseCharge tripData acc m :
  collectCharges (before ++ after) baseCharge tripData acc = Ok m ->
  exists acc', collectCharges before baseCharge tripData acc = Ok acc'
               /\ collectCharges after baseCharge tripData acc' = Ok m.
Proof.
  revert acc. induction before as [|charge rest IH]; simpl; intros acc; [ eauto | ].
  destruct (AdditionalCharge.calculate charge baseCharge tripData) as [amount|e];
    simpl; [ apply IH | discriminate ].
Qed.

Lemma collectCharges_keeps charges baseCharge tripData acc m name :
  collectCharges charges baseCharge tripData acc = Ok m ->
  Forall (fun charge => AdditionalCharge.name charge <> name) charges ->
  amountOf m name = amountOf acc name.
Proof.
  intros H Hother. revert acc H.
  induction Hother as [|charge rest Hne _ IH]; simpl; intros acc.
  - now intros [= <-].
  - destruct (AdditionalCharge.calculate charge baseCharge tripData) as [amount|e];
      simpl; [ | discriminate ].
    intros H. rewrite (IH _ H). now apply amountOf_set_other.
Qed.

Lemma calculateCharge_parts rule tripData cc :
  calculateCharge rule tripData = Ok cc ->
  collectCharges (RateItem.additionalCharges rule) (baseCharge cc) tripData []
  = Ok (ChargeCalculation.additionalCharges cc)
  /\ ChargeCalculation.fuelAdjustment cc
     = FuelAdjustment.calculate (RateItem.fuelAdjustment rule) (baseCharge cc)
  /\ discounts cc = [] /\ surcharges cc = [].
Proof.
  unfold calculateCharge.
  destruct (every _ _) as [[|]|e]; simpl; try discriminate.
  destruct (rateTypeCharge rule tripData) as [raw|e]; simpl; try discriminate.
  destruct (collectCharges _ _ _ _) as [adds|e] eqn:Hadds; simpl; try discriminate.
  intros [= <-]. simpl. auto.
Qed.

(** X8: in the breakdown of a result of [calculateCharge] the additional
    charges carry each name once, in the order the names first occur in
    the rule; a name carries the amount of the last charge of that name,
    computed on the base charge of the result; the fuel adjustment is
    computed on that base charge too; and there are no discounts and no
    surcharges. *)
Theorem breakdown_of_calculateCharge (rule : RateItem.t) (tripData : TripData)
    (cc : ChargeCalculation.t) :
  calculateCharge rule tripData = Ok cc ->
  map fst (bd_additionalCharges (breakdown cc))
  = firstOccurrences (map AdditionalCharge.name (RateItem.additionalCharges rule))
  /\ (forall before charge after,
        RateItem.additionalCharges rule = (before ++ charge :: after)%list ->
        Forall (fun later => AdditionalCharge.name later <> AdditionalCharge.name charge)
          after ->
        exists amount,
          AdditionalCharge.calculate charge (bd_baseCharge (breakdown cc)) tripData
          = Ok amount
          /\ amountOf (bd_additionalCharges (breakdown cc)) (AdditionalCharge.name charge)
             = Some amount)
  /\ bd_fuelAdjustment (breakdown cc)
     = FuelAdjustment.calculate (RateItem.fuelAdjustment rule) (bd_baseCharge (breakdown cc))
  /\ bd_discounts (breakdown cc) = []
  /\ bd_surcharges (breakdown cc) = [].
Proof.
  intros H. destruct (calculateCharge_parts _ _ _ H) as (Hadds & Hfuel & Hdisc & Hsur).
  simpl. repeat split; auto.
  - rewrite (collectCharges_keys _ _ _ _ _ Hadds). simpl. apply filter_all.
  - intros before charge after Hsplit Hlast. rewrite Hsplit in Hadds.
    apply collectCharges_app in Hadds as (acc & _ & Hrest). simpl in Hrest.
    destruct (AdditionalCharge.calculate charge (baseCharge cc) tripData)
      as [amount|e]; simpl in Hrest; [ | discriminate ].
    exists amount. split; [ reflexivity | ].
    rewrite (collectCharges_keeps _ _ _ _ _ _ Hrest Hlast).
    apply amountOf_set_same.
Qed.

Lemma breakdown_of_calculateCharge_witness :
  map fst (bd_additionalCharges
             (breakdown (ChargeCalculation.new 50 [("Toll", 5); ("Permit", 2)] (-2.5) [] [])))
  = ["Toll"; "Permit"]
  /\ amountOf (bd_additionalCharges
                 (breakdown (ChargeCalculation.new 50 [("Toll", 5); ("Permit", 2)] (-2.5) [] [])))
       "Toll" = Some 5.
Proof.
  assert (H : calculateCharge
                (MoreSamples.ruleWith RateType.PER_KM
                   [MoreSamples.charge "Toll" 4 false; MoreSamples.charge "Permit" 2 false;
                    MoreSamples.charge "Toll" 10 true])
                Samples.trip
              = Ok (ChargeCalculation.new 50 [("Toll", 5); ("Permit", 2)] (-2.5) [] []))
    by reflexivity.
  destruct (breakdown_of_calculateCharge _ _ _ H) as (Hnames & Hamounts & _).
  split; [ exact Hnames | ].
  destruct (Hamounts [MoreSamples.charge "Toll" 4 false; MoreSamples.charge "Permit" 2 false]
              (MoreSamples.charge "Toll" 10 true) [] eq_refl (List.Forall_nil _))
    as (amount & Hamount & Hstored).
  injection Hamount as <-. exact Hstored.
Defined.

End Breakdown.

(** ** Which trips find a rule *)

Section Applicable.
Import RateCard Errors.

Lemma applicableItems_some card tripData rule :
  In rule (rateItems card) -> keysMatch rule tripData ->
  exists first rest,
    applicableItems card tripData = first :: rest
    /\ In first (rateItems card) /\ keysMatch first tripData.
Proof.
  intros Hin Hmatch.
  assert (Hfound : In rule (applicableItems card tripData)).
  { unfold applicableItems. apply List.filter_In. split; [ exact Hin | ].
    now apply matchesCriteria_iff. }
  destruct (applicableItems card tripData) as [|first rest] eqn:Happ; [ destruct Hfound | ].
  exists first, rest. split; [ reflexivity | ].
  assert (Hfirst : In first (applicableItems card tripData))
    by (rewrite Happ; now left).
  unfold applicableItems in Hfirst. apply List.filter_In in Hfirst as [H1 H2].
  split; [ exact H1 | now apply matchesCriteria_iff ].
Qed.

Lemma calculateRate_some_rule_applies card tripData rule tripId :
  In rule (rateItems card) -> keysMatch rule tripData ->
  calculateRate card tripData <> Throw (NoApplicableRuleError tripId).
Proof.
  intros Hin Hmatch.
  destruct (applicableItems_some _ _ _ Hin Hmatch) as (first & rest & Happ & _ & _).
  unfold calculateRate. rewrite Happ. simpl. intros H.
  apply calculateCharge_throws_cases in H as [[H _] | [[H _] | (c & _ & Hc)]];
    try discriminate H.
  apply evaluate_throws in Hc as [Hc|Hc]; discriminate Hc.
Qed.

(** X9: [calculateRate] throws the no-applicable-rate error exactly when no
    rule of the catalog matches the trip; a failure of the rule selected
    is never reported as that error. *)
Theorem calculateRate_no_applicable_rule_iff (card : RateCard.t) (tripData : TripData) :
  (exists tripId, calculateRate card tripData = Throw (NoApplicableRuleError tripId))
  <-> Forall (fun rule => ~ keysMatch rule tripData) (rateItems card).
Proof.
  split.
  - intros [tripId H]. apply List.Forall_forall. intros rule Hin Hmatch.
    exact (calculateRate_some_rule_applies _ _ _ tripId Hin Hmatch H).
  - intros Hnone. exists (ToString (get tripData "id")).
    unfold calculateRate. now rewrite (applicableItems_none _ _ Hnone).
Qed.

Lemma calculateRate_no_applicable_rule_iff_witness :
  Forall (fun rule => ~ keysMatch rule Samples.trip)
    (rateItems (Samples.catalog [Samples.rule "BER" RateType.FIXED 75 0 []])).
Proof.
  apply (proj1 (calculateRate_no_applicable_rule_iff
                  (Samples.catalog [Samples.rule "BER" RateType.FIXED 75 0 []])
                  Samples.trip)).
  exists "T-17". reflexivity.
Defined.

(** X10: a catalog that holds a rule whose three matching keys are the
    wildcard marker never throws the no-applicable-rate error, whatever
    the trip is, even one without origin, destination or vehicle type. *)
Theorem calculateRate_catch_all (card : RateCard.t) (rule : RateItem.t)
    (tripData : TripData) (tripId : string) :
  In rule (rateItems card) ->
  catchAll rule ->
  calculateRate card tripData <> Throw (NoApplicableRuleError tripId).
Proof.
  intros Hin (Horigin & Hdestination & Hvehicle).
  apply (calculateRate_some_rule_applies _ _ rule); [ exact Hin | ].
  unfold keysMatch, keyMatches. auto.
Qed.

Lemma calculateRate_catch_all_witness :
  calculateRate
    (Samples.catalog [Samples.rule "BER" RateType.FIXED 75 0 [];
                      MoreSamples.ruleWith RateType.FIXED []])
    Samples.emptyTrip
  <> Throw (NoApplicableRuleError "undefined").
Proof.
  apply (calculateRate_catch_all
           (Samples.catalog [Samples.rule "BER" RateType.FIXED 75 0 [];
                             MoreSamples.ruleWith RateType.FIXED []])
           (MoreSamples.ruleWith RateType.FIXED []) Samples.emptyTrip "undefined").
  - right; left; reflexivity.
  - repeat split.
Defined.

End Applicable.

(** ** Editing the rate items of a card *)

Section Editing.
Import RateCardItems Errors.

Lemma filter_length_lt {A : Type} (p : A -> bool) (l : list A) :
  (length (List.filter p l) <? length l)%nat = true
  <-> exists a, In a l /\ p a = false.
Proof.
  rewrite Nat.ltb_lt. induction l as [|a l IH]; simpl.
  - split; [ lia | intros (a & [] & _) ].
  - pose proof (List.filter_length_le p l) as Hle.
    destruct (p a) eqn:Ha; simpl.
    + rewrite <- Nat.succ_lt_mono, IH. split.
      * intros (b & Hin & Hb). eauto.
      * intros (b & [<-|Hin] & Hb); [ congruence | eauto ].
    + split; [ eauto | lia ].
Qed.

Lemma filter_keeps_all {A : Type} (p : A -> bool) (l : list A) :
  Forall (fun a => p a = true) l -> List.filter p l = l.
Proof. induction 1 as [|a l Ha _ IH]; simpl; [ reflexivity | now rewrite Ha, IH ]. Qed.

Lemma differs_iff (item : StoredItem) (itemId' : string) :
  negb (String.eqb (itemId item) itemId') = true <-> itemId item <> itemId'.
Proof. now rewrite negb_true_iff, String.eqb_neq. Qed.

(** X11: [removeRateItem] removes every item that has the identifier and
    no other item; it returns true exactly when the card had such an
    item; and removing the same identifier again changes nothing and
    returns false. *)
Theorem removeRateItem_removes (this : RateCardItems.t) (itemId' : string) :
  (snd (removeRateItem this itemId') = true
   <-> exists item, In item (rateItems this) /\ itemId item = itemId')
  /\ (forall item,
        In item (rateItems (fst (removeRateItem this itemId')))
        <-> In item (rateItems this) /\ itemId item <> itemId')
  /\ removeRateItem (fst (removeRateItem this itemId')) itemId'
     = (fst (removeRateItem this itemId'), false).
Proof.
  unfold removeRateItem. simpl. split; [ | split ].
  - rewrite filter_length_lt. split; intros (item & Hin & Hitem); exists item;
      (split; [ exact Hin | ]).
    + apply negb_false_iff in Hitem. now apply String.eqb_eq.
    + apply negb_false_iff. now apply String.eqb_eq.
  - intros item. now rewrite List.filter_In, differs_iff.
  - rewrite filter_keeps_all.
    + now rewrite Nat.ltb_irrefl.
    + apply List.Forall_forall. intros item Hin.
      now apply List.filter_In in Hin.
Qed.

Lemma removeRateItem_removes_witness :
  snd (removeRateItem
         (MoreSamples.card [MoreSamples.stored "a" "AMS"; MoreSamples.stored "b" "RTM";
                            MoreSamples.stored "a" "EIN"]) "a") = true.
Proof.
  apply (proj1 (removeRateItem_removes
                  (MoreSamples.card [MoreSamples.stored "a" "AMS"; MoreSamples.stored "b" "RTM";
                                     MoreSamples.stored "a" "EIN"]) "a")).
  exists (MoreSamples.stored "a" "EIN"). split; [ simpl; tauto | reflexivity ].
Defined.

Lemma findIndex_first {A : Type} (p : A -> bool) before a after :
  Forall (fun b => p b = false) before -> p a = true ->
  findIndex p (before ++ a :: after) = Some (length before).
Proof.
  intros Hbefore Ha. induction Hbefore as [|b l Hb _ IH]; simpl.
  - now rewrite Ha.
  - now rewrite Hb, IH.
Qed.

Lemma findIndex_none {A : Type} (p : A -> bool) l :
  Forall (fun b => p b = false) l -> findIndex p l = None.
Proof. induction 1 as [|b l Hb _ IH]; simpl; [ reflexivity | now rewrite Hb, IH ]. Qed.

Lemma findIndex_some {A : Type} (p : A -> bool) l index :
  findIndex p l = Some index ->
  exists before a after,
    l = (before ++ a :: after)%list /\ length before = index
    /\ Forall (fun b => p b = false) before /\ p a = true.
Proof.
  revert index. induction l as [|b l IH]; simpl; intros index; [ discriminate | ].
  destruct (p b) eqn:Hb.
  - intros [= <-]. exists [], b, l. auto.
  - destruct (findIndex p l) as [i|]; simpl; [ | discriminate ].
    intros [= <-]. destruct (IH i eq_refl) as (before & a & after & -> & <- & Hbefore & Ha).
    exists (b :: before), a, after. auto.
Qed.

Lemma insert_middle {A : Type} (before : list A) (a x : A) (after : list A) :
  <[List.length before := x]> (before ++ a :: after)%list = (before ++ x :: after)%list.
Proof. induction before as [|b l IH]; simpl; [ reflexivity | now rewrite IH ]. Qed.

Lemma same_id_iff (item : StoredItem) (itemId' : string) :
  String.eqb (itemId item) itemId' = false <-> itemId item <> itemId'.
Proof. apply String.eqb_neq. Qed.

Lemma imap_unchanged {A : Type} (f : nat -> A -> A) (l : list A) :
  (forall place a, f place a = a) -> imap f l = l.
Proof.
  revert f. induction l as [|a l IH]; intros f Hf; simpl; [ reflexivity | ].
  rewrite Hf. f_equal. apply IH. intros place b. apply Hf.
Qed.

(** X12: [updateRateItem] returns false and leaves the card as it is when
    no item has the identifier.  Otherwise it returns true, the card has
    as many items as before, and the item passed, with the identifier and
    the card written into it, is at the place of the first item that has
    the identifier and at every place that held the object passed; every
    other place holds what it held.  So when the object passed is not one
    of the card, the item takes the place of the first item with the
    identifier and the identifiers of the items, in their order, are what
    they were. *)
Theorem updateRateItem_replaces_first (this : RateCardItems.t) (itemId' : string)
    (updatedItem : StoredItem) (elsewhere : list nat) :
  (fresh this itemId' -> updateRateItem this itemId' updatedItem elsewhere = (this, false))
  /\ (forall before old after,
        rateItems this = (before ++ old :: after)%list ->
        Forall (fun item => itemId item <> itemId') before ->
        itemId old = itemId' ->
        snd (updateRateItem this itemId' updatedItem elsewhere) = true
        /\ List.length (rateItems (fst (updateRateItem this itemId' updatedItem elsewhere)))
           = List.length (rateItems this)
        /\ (forall place item,
              rateItems this !! place = Some item ->
              rateItems (fst (updateRateItem this itemId' updatedItem elsewhere)) !! place
              = Some (if isAmong place (List.length before :: elsewhere)
                      then written this itemId' updatedItem
                      else item))
        /\ (elsewhere = [] ->
            updateRateItem this itemId' updatedItem elsewhere
            = ({| id := id this;
                  rateItems := (before ++ written this itemId' updatedItem :: after)%list |},
               true)))
  /\ (elsewhere = [] ->
      map itemId (rateItems (fst (updateRateItem this itemId' updatedItem elsewhere)))
      = map itemId (rateItems this)).
Proof.
  unfold updateRateItem, fresh, written. split; [ | split ].
  - intros Hfresh. rewrite findIndex_none; [ reflexivity | ].
    eapply List.Forall_impl; [ | exact Hfresh ]. intros item. apply same_id_iff.
  - intros before old after Hitems Hbefore Hold.
    destruct this as [card items]. simpl in *. subst items.
    rewrite findIndex_first.
    2: { eapply List.Forall_impl; [ | exact Hbefore ]. intros item. apply same_id_iff. }
    2: { now apply String.eqb_eq. }
    cbn [fst snd rateItems id]. split; [ reflexivity | ]. split; [ | split ].
    + now rewrite length_insert, length_imap.
    + intros place item Hplace.
      destruct (Nat.eqb_spec place (List.length before)) as [->|Hother];
        cbn [orb].
      * rewrite list_lookup_insert_eq; [ reflexivity | ].
        rewrite length_imap, length_app. simpl. lia.
      * rewrite list_lookup_insert_ne by congruence.
        now rewrite list_lookup_imap, Hplace.
    + intros ->. rewrite imap_unchanged by reflexivity.
      now rewrite insert_middle.
  - intros ->.
    destruct (findIndex _ (rateItems this)) as [index|] eqn:Hfind; [ | reflexivity ].
    apply findIndex_some in Hfind as (before & old & after & Hitems & <- & _ & Hold).
    simpl. rewrite imap_unchanged by reflexivity.
    rewrite Hitems, insert_middle, !map_app. simpl.
    apply String.eqb_eq in Hold. unfold itemId at 2. simpl. now rewrite Hold.
Qed.

Lemma updateRateItem_replaces_first_witness :
  updateRateItem (MoreSamples.card [MoreSamples.stored "a" "AMS"]) "b"
    (MoreSamples.stored "c" "BER") []
  = (MoreSamples.card [MoreSamples.stored "a" "AMS"], false)
  /\ updateRateItem
       (MoreSamples.card [MoreSamples.stored "a" "AMS"; MoreSamples.stored "b" "RTM";
                          MoreSamples.stored "b" "EIN"])
       "b" (MoreSamples.stored "c" "BER") []
     = (MoreSamples.card [MoreSamples.stored "a" "AMS";
                          MoreSamples.owner (MoreSamples.stored "b" "BER");
                          MoreSamples.stored "b" "EIN"], true)
  /\ rateItems
       (fst (updateRateItem
               (MoreSamples.card [MoreSamples.stored "a" "AMS"; MoreSamples.stored "b" "RTM"])
               "a" (MoreSamples.stored "b" "RTM") [1%nat])) !! 1%nat
     = Some (MoreSamples.owner (MoreSamples.stored "a" "RTM")).
Proof.
  split; [ | split ].
  - apply (proj1 (updateRateItem_replaces_first
                    (MoreSamples.card [MoreSamples.stored "a" "AMS"]) "b"
                    (MoreSamples.stored "c" "BER") [])).
    constructor; [ discriminate | constructor ].
  - apply (proj2 (proj2 (proj2
             (proj1 (proj2 (updateRateItem_replaces_first
                    (MoreSamples.card [MoreSamples.stored "a" "AMS"; MoreSamples.stored "b" "RTM";
                                       MoreSamples.stored "b" "EIN"])
                    "b" (MoreSamples.stored "c" "BER") []))
                [MoreSamples.stored "a" "AMS"] (MoreSamples.stored "b" "RTM")
                [MoreSamples.stored "b" "EIN"]
                eq_refl
                ltac:(constructor; [ discriminate | constructor ])
                eq_refl)))).
    reflexivity.
  - apply (proj1 (proj2 (proj2
             (proj1 (proj2 (updateRateItem_replaces_first
                    (MoreSamples.card [MoreSamples.stored "a" "AMS"; MoreSamples.stored "b" "RTM"])
                    "a" (MoreSamples.stored "b" "RTM") [1%nat]))
                [] (MoreSamples.stored "a" "AMS") [MoreSamples.stored "b" "RTM"]
                eq_refl ltac:(constructor) eq_refl)))
             1%nat (MoreSamples.stored "b" "RTM")).
    reflexivity.
Defined.

Lemma Forall_imap_choice {A : Type} (P : A -> Prop) (chosen : nat -> bool) (x : A) l :
  P x -> Forall P l ->
  Forall P (imap (fun place item => if chosen place then x else item) l).
Proof.
  intros Hx Hl. apply Forall_lookup. intros place y. rewrite list_lookup_imap.
  destruct (l !! place) as [z|] eqn:Hz; simpl; [ | discriminate ].
  intros [= <-]. destruct (chosen place); [ exact Hx | ].
  exact (Forall_lookup_1 _ _ _ _ Hl Hz).
Qed.

(** X13: the editing methods keep the card the owner of its items: when
    every item refers to the card, so does every item after
    [addRateItem], [removeRateItem], [updateRateItem] and
    [clearRateItems]. *)
Theorem editing_keeps_ownership (this : RateCardItems.t) :
  owned this ->
  (forall uuid item, owned (addRateItem uuid this item))
  /\ (forall itemId', owned (fst (removeRateItem this itemId')))
  /\ (forall itemId' updatedItem elsewhere,
        owned (fst (updateRateItem this itemId' updatedItem elsewhere)))
  /\ owned (clearRateItems this).
Proof.
  unfold owned. intros Howned. split; [ | split; [ | split ] ].
  - intros uuid item. simpl. apply Forall_app. split; [ exact Howned | ].
    constructor; [ reflexivity | constructor ].
  - intros itemId'. simpl. apply List.Forall_forall. intros item Hin.
    apply List.filter_In in Hin as [Hin _].
    revert item Hin. now apply List.Forall_forall.
  - intros itemId' updatedItem elsewhere. unfold updateRateItem.
    destruct (findIndex _ _) as [index|]; simpl; [ | exact Howned ].
    apply Forall_insert; [ | reflexivity ].
    apply Forall_imap_choice; [ reflexivity | exact Howned ].
  - constructor.
Qed.

Lemma editing_keeps_ownership_witness :
  owned (addRateItem "generated"
           (MoreSamples.card [MoreSamples.owner (MoreSamples.stored "a" "AMS")])
           (MoreSamples.stored "" "BER")).
Proof.
  apply (proj1 (editing_keeps_ownership
                  (MoreSamples.card [MoreSamples.owner (MoreSamples.stored "a" "AMS")])
                  ltac:(constructor; [ reflexivity | constructor ]))).
Defined.

(** X14: an item added under an identifier no item of the card has is
    removed again by [removeRateItem] with that identifier, which returns
    true and leaves the card as it was before the addition.  The
    identifier is the one of the item, or the generated one when the item
    has none. *)
Theorem add_then_remove (uuid : string) (this : RateCardItems.t) (item : StoredItem) :
  fresh this (itemId (adopted uuid this item)) ->
  removeRateItem (addRateItem uuid this item) (itemId (adopted uuid this item))
  = (this, true).
Proof.
  unfold fresh. intros Hfresh. unfold removeRateItem, addRateItem. simpl.
  rewrite List.filter_app. simpl. rewrite String.eqb_refl. simpl.
  rewrite filter_keeps_all.
  - rewrite app_nil_r, length_app. simpl.
    replace (length (rateItems this) <? length (rateItems this) + 1)%nat with true
      by (symmetry; apply Nat.ltb_lt; lia).
    now destruct this.
  - eapply List.Forall_impl; [ | exact Hfresh ]. intros other. apply differs_iff.
Qed.

Lemma add_then_remove_witness :
  removeRateItem
    (addRateItem "generated" (MoreSamples.card [MoreSamples.stored "a" "AMS"])
       (MoreSamples.stored "" "BER"))
    "generated"
  = (MoreSamples.card [MoreSamples.stored "a" "AMS"], true).
Proof.
  apply (add_then_remove "generated" (MoreSamples.card [MoreSamples.stored "a" "AMS"])
           (MoreSamples.stored "" "BER")).
  constructor; [ discriminate | constructor ].
Defined.

Lemma applicableItems_app card1 card2 items1 items2 tripData :
  RateCard.rateItems card1 = (items1 ++ items2)%list ->
  RateCard.rateItems card2 = items1 ->
  RateCard.applicableItems card1 tripData
  = (RateCard.applicableItems card2 tripData
     ++ RateCard.applicableItems {| RateCard.id := RateCard.id card1;
                                     RateCard.rateItems := items2 |} tripData)%list.
Proof.
  unfold RateCard.applicableItems. intros -> ->. simpl. apply List.filter_app.
Qed.

(** X15: [addRateItem] puts the item after all the others, so the price of
    a trip that a rule of the card already matches is what it was; and
    for a trip that no rule of the card matches and the new rule does,
    the price is the charge of the new rule. *)
Theorem addRateItem_keeps_prices (uuid : string) (this : RateCardItems.t)
    (item : StoredItem) (tripData : TripData) :
  (Exists (itemMatches tripData) (rateItems this) ->
   calculateRate (addRateItem uuid this item) tripData = calculateRate this tripData)
  /\ (Forall (fun other => ~ itemMatches tripData other) (rateItems this) ->
      itemMatches tripData item ->
      calculateRate (addRateItem uuid this item) tripData
      = RateItem.calculateCharge (rule item) tripData).
Proof.
  unfold calculateRate, RateCard.calculateRate, itemMatches.
  rewrite (applicableItems_app (pricing (addRateItem uuid this item)) (pricing this)
             (map rule (rateItems this)) [rule (adopted uuid this item)])
    by (simpl; now rewrite ?map_app).
  split.
  - intros Hsome. apply List.Exists_exists in Hsome as (other & Hin & Hmatch).
    destruct (applicableItems_some (pricing this) tripData (rule other))
      as (first & rest & -> & _); [ simpl; now apply in_map | exact Hmatch | ].
    reflexivity.
  - intros Hnone Hmatch.
    rewrite (applicableItems_none (pricing this)).
    + assert (Hkeys : keysMatch (rule (adopted uuid this item)) tripData).
      { unfold adopted. now destruct (String.eqb (itemId item) ""). }
      apply matchesCriteria_iff in Hkeys.
      unfold RateCard.applicableItems. cbn [RateCard.rateItems List.filter app].
      rewrite Hkeys. cbn [app List.length Nat.eqb].
      unfold adopted. now destruct (String.eqb (itemId item) "").
    + simpl. apply List.Forall_forall. intros r Hin.
      apply in_map_iff in Hin as (other & <- & Hin).
      revert other Hin. now apply List.Forall_forall.
Qed.

Lemma addRateItem_keeps_prices_witness :
  calculateRate
    (addRateItem "generated" (MoreSamples.card [MoreSamples.stored "a" "*"])
       (MoreSamples.stored "b" "AMS"))
    Samples.trip
  = calculateRate (MoreSamples.card [MoreSamples.stored "a" "*"]) Samples.trip.
Proof.
  apply (proj1 (addRateItem_keeps_prices "generated"
                  (MoreSamples.card [MoreSamples.stored "a" "*"])
                  (MoreSamples.stored "b" "AMS") Samples.trip)).
  constructor. repeat split; left; reflexivity.
Defined.

End Editing.

(** ** Status and period of validity *)

Section Validity.
Import RateCardValidity MoreFloatFacts.

(** X16: a card that [isActive] reports active at some time has the
    status ACTIVE and is not reported expired by [isExpired] at that
    time. *)
Theorem active_is_not_expired (now : float) (this : RateCardValidity.t) :
  isActive now this = true ->
  status this = RateCardStatus.ACTIVE /\ isExpired now this <> VBool true.
Proof.
  unfold isActive, isExpired. rewrite !andb_true_iff. intros [[Hstatus _] Hto].
  split; [ now apply String.eqb_eq | ].
  destruct (effectiveTo this) as [to|]; [ | discriminate ].
  now rewrite (leb_not_ltb _ _ Hto).
Qed.

Lemma active_is_not_expired_witness :
  isExpired 1500
    {| status := RateCardStatus.ACTIVE; effectiveFrom := 1000; effectiveTo := Some 2000 |}
  <> VBool true.
Proof.
  apply (active_is_not_expired 1500
           {| status := RateCardStatus.ACTIVE; effectiveFrom := 1000;
              effectiveTo := Some 2000 |}).
  reflexivity.
Defined.

(** X17: a card whose end date is an invalid date is neither active nor
    expired at any time, whatever its status; [isExpired] answers [null],
    not false, for a card without end date. *)
Theorem invalid_end_date (now : float) (this : RateCardValidity.t) :
  (effectiveTo this = Some PrimFloat.nan ->
   isActive now this = false /\ isExpired now this = VBool false)
  /\ (effectiveTo this = None -> isExpired now this = VNull).
Proof.
  unfold isActive, isExpired. split; intros ->; [ | reflexivity ].
  now rewrite FloatFacts.leb_nan_r, FloatFacts.ltb_nan_l, andb_false_r.
Qed.

Lemma invalid_end_date_witness :
  isActive 1500
    {| status := RateCardStatus.ACTIVE; effectiveFrom := 1000;
       effectiveTo := Some PrimFloat.nan |} = false
  /\ isExpired 1500
       {| status := RateCardStatus.ACTIVE; effectiveFrom := 1000;
          effectiveTo := Some PrimFloat.nan |} = VBool false.
Proof.
  apply (proj1 (invalid_end_date 1500
                  {| status := RateCardStatus.ACTIVE; effectiveFrom := 1000;
                     effectiveTo := Some PrimFloat.nan |})).
  reflexivity.
Defined.

End Validity.

(** ** A fuel price that did not change *)

Section FuelUnchanged.
Import FuelAdjustment FloatFacts.

Lemma finite_finiteSF x : finite x = true -> finiteSF (Prim2SF x).
Proof. unfold finite. now destruct (Prim2SF x). Qed.

Lemma finite_nonzeroSF x :
  finite x = true -> (x =? 0) = false -> nonzeroSF (Prim2SF x).
Proof.
  unfold finite. rewrite FloatAxioms.eqb_spec, Prim2SF_zero.
  destruct (Prim2SF x) as [s|s| |s m e]; simpl; try discriminate; auto.
Qed.

Lemma SFsub_same x : nonzeroSF x -> SFsub prec emax x x = S754_zero false.
Proof.
  destruct x as [s|s| |s m e]; simpl; try tauto. intros _.
  now rewrite Z.sub_diag.
Qed.

Lemma SFdiv_zero x y : zeroSF x -> nonzeroSF y -> zeroSF (SFdiv prec emax x y).
Proof. destruct x, y; simpl; tauto. Qed.

Lemma SFmul_zero_l x y : zeroSF x -> finiteSF y -> zeroSF (SFmul prec emax x y).
Proof. destruct x, y; simpl; tauto. Qed.

Lemma SFmul_zero_r x y : finiteSF x -> zeroSF y -> zeroSF (SFmul prec emax x y).
Proof. destruct x, y; simpl; tauto. Qed.

Lemma eqb_zero x : zeroSF (Prim2SF x) -> (x =? 0) = true.
Proof.
  rewrite FloatAxioms.eqb_spec, Prim2SF_zero. now destruct (Prim2SF x).
Qed.

(** X18: when the current fuel price is the reference price, a finite
    price other than zero, the adjustment of an enabled fuel adjustment is
    zero for every finite base charge and every finite factor. *)
Theorem fuel_adjustment_unchanged_price (this : FuelAdjustment.t) (baseRate : float) :
  enabled this = true ->
  finite (basePrice this) = true ->
  (basePrice this =? 0) = false ->
  currentPrice this = basePrice this ->
  finite baseRate = true ->
  finite (adjustmentFactor this) = true ->
  (calculate this baseRate =? 0) = true.
Proof.
  intros Hon Hfinite Hnonzero Hsame Hbase Hfactor.
  unfold calculate, percentageChange, priceChange.
  rewrite Hon, Hnonzero, Hsame. simpl.
  apply eqb_zero. rewrite div_spec, !mul_spec, div_spec, sub_spec.
  pose proof (finite_nonzeroSF _ Hfinite Hnonzero) as Hprice.
  apply SFdiv_zero; [ | exact I ].
  apply SFmul_zero_l; [ | now apply finite_finiteSF ].
  apply SFmul_zero_r; [ now apply finite_finiteSF | ].
  apply SFmul_zero_l; [ | exact I ].
  apply SFdiv_zero; [ | exact Hprice ].
  unfold SF64sub. now rewrite (SFsub_same _ Hprice).
Qed.

Lemma fuel_adjustment_unchanged_price_witness :
  (calculate {| enabled := true; basePrice := 100; currentPrice := 100;
                adjustmentFactor := 0.5 |} 200 =? 0) = true.
Proof.
  apply (fuel_adjustment_unchanged_price
           {| enabled := true; basePrice := 100; currentPrice := 100;
              adjustmentFactor := 0.5 |} 200); reflexivity.
Defined.

End FuelUnchanged.

(** ** Values that are not numbers, and rules that fail *)

Section MoreEdges.
Import RateCondition ConditionOperator Errors Samples.

(** X19: when the value of the parameter on the trip has no Number value
    (a text that is not a numeric literal, say), the four numeric
    operators give false whatever the operand is, and so does BETWEEN
    whatever its text operand is; no error is raised. *)
Theorem evaluate_not_a_number (parameter : string) (tripData : TripData) :
  get tripData parameter <> VUndefined ->
  ToNumber (get tripData parameter) = PrimFloat.nan ->
  (forall operator value, In operator numericOperators ->
     evaluate {| parameter := parameter; operator := operator; value := value |} tripData
     = Ok false)
  /\ (forall value, evaluate (condition parameter BETWEEN value) tripData = Ok false).
Proof.
  intros Hpresent Hnan. unfold evaluate. simpl.
  rewrite (isUndefined_false _ Hpresent). unfold gt, lt, ge, le. rewrite Hnan. split.
  - intros operator value [<-|[<-|[<-|[<-|[]]]]]; decide_cases;
      now rewrite ?FloatFacts.ltb_nan_l, ?FloatFacts.ltb_nan_r,
                  ?FloatFacts.leb_nan_l, ?FloatFacts.leb_nan_r.
  - intros value. decide_cases. now rewrite FloatFacts.leb_nan_r.
Qed.

Lemma evaluate_not_a_number_witness :
  evaluate (condition "vehicleType" LESS_THAN "10") Samples.trip = Ok false
  /\ evaluate (condition "vehicleType" BETWEEN "1,10") Samples.trip = Ok false.
Proof.
  assert (Hpresent : get Samples.trip "vehicleType" <> VUndefined)
    by (vm_compute; discriminate).
  assert (Hnan : ToNumber (get Samples.trip "vehicleType") = PrimFloat.nan)
    by reflexivity.
  split.
  - apply (proj1 (evaluate_not_a_number "vehicleType" Samples.trip Hpresent Hnan)
             LESS_THAN (VStr "10")).
    simpl; tauto.
  - apply (proj2 (evaluate_not_a_number "vehicleType" Samples.trip Hpresent Hnan) "1,10").
Defined.

Lemma applicableItems_first card tripData before rule after :
  RateCard.rateItems card = (before ++ rule :: after)%list ->
  Forall (fun r => ~ keysMatch r tripData) before ->
  keysMatch rule tripData ->
  RateCard.calculateRate card tripData = RateItem.calculateCharge rule tripData.
Proof.
  intros Hitems Hbefore Hrule.
  pose proof (applicableItems_none {| RateCard.id := RateCard.id card;
                                      RateCard.rateItems := before |}
                tripData Hbefore) as Hnone.
  unfold RateCard.calculateRate, RateCard.applicableItems in *. simpl in Hnone.
  rewrite Hitems, List.filter_app, Hnone. simpl.
  apply matchesCriteria_iff in Hrule. now rewrite Hrule.
Qed.

(** X20: there is no fall-back to a later rule: when the first rule of the
    catalog that matches the trip has a condition that evaluates to false
    (no condition before it raising an error), [calculateRate] throws the
    conditions-not-met error, whatever rules follow it, even rules that
    match the trip and have no conditions. *)
Theorem calculateRate_no_fallback (card : RateCard.t) (tripData : TripData)
    (before : list RateItem.t) (rule : RateItem.t) (after : list RateItem.t)
    (held : list RateCondition.t) (c : RateCondition.t) (others : list RateCondition.t) :
  RateCard.rateItems card = (before ++ rule :: after)%list ->
  Forall (fun r => ~ keysMatch r tripData) before ->
  keysMatch rule tripData ->
  RateItem.conditions rule = (held ++ c :: others)%list ->
  Forall (evaluatesCleanly tripData) held ->
  evaluate c tripData = Ok false ->
  RateCard.calculateRate card tripData = Throw ConditionsNotMetError.
Proof.
  intros Hitems Hbefore Hrule Hconds Hheld Hc.
  rewrite (applicableItems_first _ _ _ _ _ Hitems Hbefore Hrule).
  unfold RateItem.calculateCharge.
  now rewrite Hconds, (every_first_false _ held c others Hheld Hc).
Qed.

Lemma calculateRate_no_fallback_witness :
  RateCard.calculateRate
    (catalog [rule "AMS" RateType.PER_KM 5 50 [condition "cargoClass" EQUALS "FRAGILE"];
              rule "*" RateType.FIXED 100 0 []])
    Samples.trip
  = Throw ConditionsNotMetError.
Proof.
  apply (calculateRate_no_fallback
           (catalog [rule "AMS" RateType.PER_KM 5 50 [condition "cargoClass" EQUALS "FRAGILE"];
                     rule "*" RateType.FIXED 100 0 []])
           Samples.trip []
           (rule "AMS" RateType.PER_KM 5 50 [condition "cargoClass" EQUALS "FRAGILE"])
           [rule "*" RateType.FIXED 100 0 []]
           [] (condition "cargoClass" EQUALS "FRAGILE") []).
  - reflexivity.
  - constructor.
  - repeat split; (left; reflexivity) || (right; reflexivity).
  - reflexivity.
  - constructor.
  - reflexivity.
Defined.

Lemma filter_map_commute {A B : Type} (f : A -> B) (p : B -> bool) (l : list A) :
  List.filter p (map f l) = map f (List.filter (fun a => p (f a)) l).
Proof.
  induction l as [|a l IH]; simpl; [ reflexivity | ].
  destruct (p (f a)); simpl; now rewrite IH.
Qed.

(** X21: removing items that do not match a trip leaves the price of the
    trip as it was. *)
Theorem removeRateItem_keeps_prices (this : RateCardItems.t) (itemId' : string)
    (tripData : TripData) :
  (forall item, In item (RateCardItems.rateItems this) ->
                RateCardItems.itemId item = itemId' -> ~ itemMatches tripData item) ->
  RateCardItems.calculateRate (fst (RateCardItems.removeRateItem this itemId')) tripData
  = RateCardItems.calculateRate this tripData.
Proof.
  intros Hunmatched.
  unfold RateCardItems.calculateRate, RateCard.calculateRate, RateCard.applicableItems.
  simpl. rewrite !filter_map_commute, filter_both.
  replace (List.filter _ (RateCardItems.rateItems this))
    with (List.filter
            (fun item => RateItem.matchesCriteria (RateCardItems.rule item)
                           (get tripData "origin") (get tripData "destination")
                           (get tripData "vehicleType"))
            (RateCardItems.rateItems this)); [ reflexivity | ].
  apply List.filter_ext_in. intros item Hin.
  destruct (RateItem.matchesCriteria _ _ _ _) eqn:Hmatch; [ | reflexivity ].
  simpl. symmetry. apply negb_true_iff, String.eqb_neq. intros Hid.
  apply (Hunmatched item Hin Hid). now apply matchesCriteria_iff.
Qed.

Lemma removeRateItem_keeps_prices_witness :
  RateCardItems.calculateRate
    (fst (RateCardItems.removeRateItem
            (MoreSamples.card [MoreSamples.stored "a" "BER"; MoreSamples.stored "b" "*"]) "a"))
    Samples.trip
  = RateCardItems.calculateRate
      (MoreSamples.card [MoreSamples.stored "a" "BER"; MoreSamples.stored "b" "*"])
      Samples.trip.
Proof.
  apply (removeRateItem_keeps_prices
           (MoreSamples.card [MoreSamples.stored "a" "BER"; MoreSamples.stored "b" "*"])
           "a" Samples.trip).
  intros item [<-|[<-|[]]] Hid; [ | discriminate Hid ].
  intros [[H|H] _]; discriminate H.
Defined.

End MoreEdges.

(** ** Construction of rate items *)

Section Construction.
Import Constructors MoreFloatFacts.

(** X22: [new RateItem] throws exactly when it is called without its
    argument object or without a fuel adjustment in it, and what it
    throws is a [TypeError]: the default fuel adjustment is built by
    [new FuelAdjustment()], which destructures an argument it was not
    given. *)
Theorem newRateItem_throws_iff (uuid : string) (args : option RateItemArgs) (e : exn) :
  newRateItem uuid args = Throw e
  <-> e = TypeError
      /\ (args = None \/ exists a, args = Some a /\ fuelAdjustment a = None).
Proof.
  unfold newRateItem. split.
  - destruct args as [a|]; [ | intros [= <-]; auto ].
    destruct (fuelAdjustment a) eqn:Hfuel; simpl; [ discriminate | ].
    intros [= <-]. eauto.
  - intros [-> [-> | (a & -> & Hfuel)]]; [ reflexivity | ].
    now rewrite Hfuel.
Qed.

Lemma newRateItem_throws_iff_witness :
  newRateItem "generated" (Some (MoreSamples.rateItemArgs (VNum 5) None)) = Throw TypeError.
Proof.
  apply (proj2 (newRateItem_throws_iff "generated"
                  (Some (MoreSamples.rateItemArgs (VNum 5) None)) TypeError)).
  split; [ reflexivity | ]. right.
  exists (MoreSamples.rateItemArgs (VNum 5) None). split; reflexivity.
Defined.

Lemma mul_nan_l x : PrimFloat.nan * x = PrimFloat.nan.
Proof. apply Prim2SF_inj. now rewrite mul_spec, FloatFacts.Prim2SF_nan. Qed.

Lemma rateTypeCharge_nan rule tripData :
  RateItem.baseRate rule = PrimFloat.nan ->
  (In (RateItem.rateType rule) rateTypes ->
   RateItem.rateTypeCharge rule tripData = Ok PrimFloat.nan)
  /\ (forall raw, RateItem.rateTypeCharge rule tripData = Ok raw -> raw = PrimFloat.nan).
Proof.
  intros Hrate. unfold RateItem.rateTypeCharge. rewrite Hrate, !mul_nan_l. split.
  - intros Hin.
    repeat match goal with
           | |- context [String.eqb (RateItem.rateType rule) ?X] =>
               let E := fresh "E" in
               destruct (String.eqb (RateItem.rateType rule) X) eqn:E;
               [ reflexivity | apply String.eqb_neq in E ]
           end.
    exfalso. unfold rateTypes in Hin. simpl in Hin. intuition congruence.
  - intros raw.
    repeat (destruct (String.eqb (RateItem.rateType rule) _); [ now intros [= <-] | ]).
    discriminate.
Qed.

Lemma calculateCharge_nan rule tripData :
  RateItem.baseRate rule = PrimFloat.nan ->
  (forall cc,
     RateItem.calculateCharge rule tripData = Ok cc ->
     ChargeCalculation.baseCharge cc = PrimFloat.nan
     /\ ChargeCalculation.totalCharge cc = PrimFloat.nan)
  /\ (In (RateItem.rateType rule) rateTypes ->
      Forall (holds tripData) (RateItem.conditions rule) ->
      Forall (fun charge =>
                Forall (evaluatesCleanly tripData) (AdditionalCharge.conditions charge))
        (RateItem.additionalCharges rule) ->
      exists cc, RateItem.calculateCharge rule tripData = Ok cc).
Proof.
  intros Hrate. destruct (rateTypeCharge_nan rule tripData Hrate) as [Hsupported Hraw].
  unfold RateItem.calculateCharge. split.
  - intros cc.
    destruct (every _ _) as [[|]|e]; simpl; try discriminate.
    destruct (RateItem.rateTypeCharge rule tripData) as [raw|e]; simpl; [ | discriminate ].
    rewrite (Hraw raw eq_refl), FloatFacts.ltb_nan_l.
    destruct (RateItem.collectCharges _ _ _ _) as [adds|e]; simpl; [ | discriminate ].
    intros [= <-]. split; [ reflexivity | ].
    unfold ChargeCalculation.new, ChargeCalculation.calculateTotalCharge. simpl.
    now rewrite addEach_nan, add_nan_l.
  - intros Hin Hholds Hclean.
    rewrite (every_all_true _ _ Hholds). simpl.
    rewrite (Hsupported Hin). simpl. rewrite FloatFacts.ltb_nan_l.
    destruct (collectCharges_returns (RateItem.additionalCharges rule) PrimFloat.nan
                tripData []) as [adds ->].
    { eapply List.Forall_impl; [ | exact Hclean ].
      intros charge Hcharge. now apply calculate_returns. }
    simpl. eauto.
Qed.

(** X23: a rate item built from a base rate that is not a number, with a
    fuel adjustment given, is built without error and its base rate is
    NaN.  Every charge it computes has the base charge NaN, whatever its
    minimum charge, and the total NaN; and it does compute a charge when
    its rate type is one of the six, its conditions hold and those of its
    additional charges evaluate without error. *)
Theorem newRateItem_unparsable_base_rate (uuid : string) (a : RateItemArgs)
    (fuel : FuelAdjustment.t) (tripData : TripData) :
  unparsable (ToString (baseRate a)) ->
  fuelAdjustment a = Some fuel ->
  exists item,
    newRateItem uuid (Some a) = Ok item
    /\ RateItem.baseRate (RateCardItems.rule item) = PrimFloat.nan
    /\ (forall cc,
          RateItem.calculateCharge (RateCardItems.rule item) tripData = Ok cc ->
          ChargeCalculation.baseCharge cc = PrimFloat.nan
          /\ ChargeCalculation.totalCharge cc = PrimFloat.nan)
    /\ (In (rateType a) rateTypes ->
        Forall (holds tripData) (orDefault (conditions a) []) ->
        Forall (fun charge =>
                  Forall (evaluatesCleanly tripData) (AdditionalCharge.conditions charge))
          (orDefault (additionalCharges a) []) ->
        exists cc,
          RateItem.calculateCharge (RateCardItems.rule item) tripData = Ok cc).
Proof.
  intros Hbad Hfuel. unfold newRateItem. rewrite Hfuel. simpl.
  eexists. split; [ reflexivity | ]. simpl.
  assert (Hrate : parseFloatOf (baseRate a) = PrimFloat.nan)
    by (unfold parseFloatOf; now rewrite (parseFloat_unparsable _ Hbad)).
  split; [ exact Hrate | ].
  match goal with
  | |- (forall cc, RateItem.calculateCharge ?rule _ = _ -> _) /\ _ =>
      exact (calculateCharge_nan rule tripData Hrate)
  end.
Qed.

Lemma newRateItem_unparsable_base_rate_witness :
  exists item,
    newRateItem "generated"
      (Some (MoreSamples.rateItemArgs (VStr "five") (Some (Samples.fuel 0.5)))) = Ok item
    /\ RateItem.baseRate (RateCardItems.rule item) = PrimFloat.nan
    /\ (forall cc,
          RateItem.calculateCharge (RateCardItems.rule item) Samples.trip = Ok cc ->
          ChargeCalculation.baseCharge cc = PrimFloat.nan
          /\ ChargeCalculation.totalCharge cc = PrimFloat.nan)
    /\ exists cc, RateItem.calculateCharge (RateCardItems.rule item) Samples.trip = Ok cc.
Proof.
  destruct (newRateItem_unparsable_base_rate "generated"
              (MoreSamples.rateItemArgs (VStr "five") (Some (Samples.fuel 0.5)))
              (Samples.fuel 0.5) Samples.trip eq_refl eq_refl)
    as (item & Hbuilt & Hrate & Hcharges & Hreturns).
  exists item. split; [ exact Hbuilt | ]. split; [ exact Hrate | ].
  split; [ exact Hcharges | ].
  apply Hreturns.
  - simpl. tauto.
  - constructor.
  - constructor.
Defined.

End Construction.
